(** * Heapster: a shallow embedding of the start-up code, the health check,
    the Elasticsearch events sink and the summary decoder.

    Go values are modelled as follows.
    - [time.Duration] and every other [int64]: a [Z] (nanoseconds for
      durations);
    - [time.Time]: a [Z], the instant in nanoseconds since Go's zero [Time];
      [Time.Sub] saturates at the [int64] bounds as the library does;
    - [string]: [string]; [len(s) > 0] is [s <> ""];
    - [map[string]T]: [gmap string T]; a slice: a [list];
    - a pointer that may be [nil]: an [option];
    - [(T, error)] results and panics: the type [res] below. *)

From stdpp Require Import gmap strings list pretty.
From Stdlib Require Import ZArith Lia Ascii String.

Open Scope string_scope.
Open Scope Z_scope.

(** ** Results of Go calls *)

(** A Go [error] value carries its message. *)
Definition error := string.

(** The outcome of a call returning [(T, error)]: a value, an error, or a
    run-time panic. *)
Inductive res (A : Type) : Type :=
| Ret (a : A)
| Err (e : error)
| Panic (msg : string).
Arguments Ret {A} a.
Arguments Err {A} e.
Arguments Panic {A} msg.

Definition nil_dereference : string :=
  "runtime error: invalid memory address or nil pointer dereference".
Definition index_out_of_range : string :=
  "runtime error: index out of range".

(** ** The [strings] package *)

Module strings.

(** [cut c s] splits [s] around the first occurrence of the byte [c]. *)
Fixpoint cut (c : ascii) (s : string) : option (string * string) :=
  match s with
  | EmptyString => None
  | String a s' =>
      if decide (a = c) then Some (EmptyString, s')
      else match cut c s' with
           | Some (before, after) => Some (String a before, after)
           | None => None
           end
  end.

(** [strings.SplitN(s, sep, n)] for a one-byte separator and [n >= 0]:
    at most [n] substrings, the last one being the unsplit remainder;
    [n = 0] gives the empty slice. *)
Fixpoint SplitN (s : string) (sep : ascii) (n : nat) : list string :=
  match n with
  | O => []
  | S O => [s]
  | S (S _ as n') =>
      match cut sep s with
      | Some (before, after) => before :: SplitN after sep n'
      | None => [s]
      end
  end.

(** The part of [s] before its first [c] (all of [s] if there is none). *)
Fixpoint before (c : ascii) (s : string) : string :=
  match s with
  | EmptyString => EmptyString
  | String a s' => if decide (a = c) then EmptyString else String a (before c s')
  end.

End strings.

(** ** [heapster.go]: flags and start-up *)

Module heapster.

(** [url.URL], reduced to the fields a source URI sets. *)
Record URL := mkURL {
  Scheme : string;
  Host : string;
  Path : string;
  RawQuery : string
}.

(** [flags.Uri]. *)
Record Uri := mkUri {
  Key : string;
  Val : URL
}.

Definition Uris := list Uri.

(** The command-line flags after [flag.Parse]. *)
Record Flags := mkFlags {
  argMetricResolution : Z;
  argPort : Z;
  argIp : string;
  argMaxProcs : Z;
  argTLSCertFile : string;
  argTLSKeyFile : string;
  argTLSClientCAFile : string;
  argAllowedUsers : string;
  argSources : Uris;
  argSinks : Uris;
  argProcessors : string
}.

Definition Second : Z := 1000000000.
Definition Minute : Z := 60 * Second.

(** [len(s) > 0] and [len(s) == 0]. *)
Definition nonempty (s : string) : bool := negb (bool_decide (s = "")).
Definition isempty (s : string) : bool := bool_decide (s = "").

(** [validateFlags]: [None] is the [nil] error. *)
Definition validateFlags (f : Flags) : option error :=
  if argMetricResolution f <? 5 * Second then
    Some ("metric resolution needs to be greater than 5 seconds - "
            +:+ pretty (argMetricResolution f))
  else if (nonempty (argTLSCertFile f) && isempty (argTLSKeyFile f))
          || (isempty (argTLSCertFile f) && nonempty (argTLSKeyFile f)) then
    Some "both TLS certificate & key are required to enable TLS serving"
  else if nonempty (argTLSClientCAFile f) && isempty (argTLSCertFile f) then
    Some "client cert authentication requires TLS certificate & key"
  else None.

(** [strings.SplitN(key, ".", 2)[0]]: the index panics on an empty slice. *)
Definition splitHead (key : string) : res string :=
  match strings.SplitN key "." 2 with
  | x :: _ => Ret x
  | [] => Panic index_out_of_range
  end.

(** [getKubernetesAddress]. *)
Fixpoint getKubernetesAddress (args : Uris) : res URL :=
  match args with
  | [] => Err "No kubernetes source found."
  | uri :: rest =>
      match splitHead (Key uri) with
      | Ret h =>
          if decide (h = "kubernetes") then Ret (Val uri)
          else getKubernetesAddress rest
      | Err e => Err e
      | Panic msg => Panic msg
      end
  end.

(** A source URI is a kubernetes source when its scheme, cut at the first
    dot, is "kubernetes". *)
Definition isKubernetesSource (u : Uri) : Prop :=
  strings.before "." (Key u) = "kubernetes".

(** What the mux serves a path with: the handler as [setupHandlers] or
    [prometheus.Handler] made it, or [newAuthHandler] of it. *)
Inductive handlerKind : Type :=
| Direct
| Authorized.

(** [tls.Config.ClientAuth]: [tls.NoClientCert] is the zero value, which
    [http.ListenAndServeTLS] serves with; [tls.RequestClientCert] asks the
    client for a certificate and does not verify it. *)
Inductive clientAuthType : Type :=
| NoClientCert
| RequestClientCert.

(** What [main] ends in: [glog.Fatal] with a message, a panic, or a
    server that listens, in plain or over TLS; for TLS, the handlers of "/"
    and of "/metrics" and the client authentication of the TLS
    configuration. *)
Inductive startup : Type :=
| Fatal (msg : string)
| Crash (msg : string)
| ServePlain
| ServeTLS (root metrics : handlerKind) (clientAuth : clientAuthType).

Section Main.

(** The constructors of the other packages, as far as [main] looks at
    them: each gives the error it returns, if any. *)
Variable sources_BuildAll : Uris -> option error.
Variable sources_NewSourceManager : option error.
Variable sinks_BuildAll_metricSink : Uris -> bool.
Variable sinks_NewDataSinkManager : option error.
Variable manager_NewManager : option error.
Variable newAuthHandler_pprof : option error.
Variable newAuthHandler_prometheus : option error.

(** [kube_config.GetKubeClientConfig]: the client configuration for a URL,
    or an error. *)
Variable KubeConfig : Type.
Variable kube_config_GetKubeClientConfig : URL -> KubeConfig + error.

(** [kube_client.NewOrDie]: it returns a client or panics; [Some msg] is
    the panic. *)
Variable kube_client_NewOrDie : KubeConfig -> option string.

(** [getPodLister]: after the client, the list-watch, the indexer and the
    reflector are built and the reflector is started, none of which reports
    a failure. *)
Definition getPodLister (url : URL) : res unit :=
  match kube_config_GetKubeClientConfig url with
  | inr err => Err err
  | inl kubeConfig =>
      match kube_client_NewOrDie kubeConfig with
      | Some msg => Panic msg
      | None => Ret tt
      end
  end.

(** With [--allowed_users] the server is built with
    [tls.Config{ClientAuth: tls.RequestClientCert}]; without it
    [http.ListenAndServeTLS] is called. *)
Definition listenTLS (f : Flags) (root metrics : handlerKind) : startup :=
  if nonempty (argAllowedUsers f) then ServeTLS root metrics RequestClientCert
  else ServeTLS root metrics NoClientCert.

(** The end of [main]: the handlers and the listener. *)
Definition serve (f : Flags) : startup :=
  if nonempty (argTLSCertFile f) && nonempty (argTLSKeyFile f) then
    if nonempty (argTLSClientCAFile f) then
      match newAuthHandler_pprof with
      | Some e => Fatal ("Failed to create authorized pprof handler: " +:+ e)
      | None =>
          match newAuthHandler_prometheus with
          | Some e =>
              Fatal ("Failed to create authorized prometheus handler: " +:+ e)
          | None => listenTLS f Authorized Authorized
          end
      end
    else listenTLS f Direct Direct
  else ServePlain.

(** [main], from [validateFlags] on. *)
Definition main (f : Flags) : startup :=
  match validateFlags f with
  | Some e => Fatal e
  | None =>
  if negb (List.length (argSources f) =? 1)%nat then
    Fatal "Wrong number of sources specified"
  else
  match sources_BuildAll (argSources f) with
  | Some e => Fatal ("Failed to create source provide: " +:+ e)
  | None =>
  match sources_NewSourceManager with
  | Some e => Fatal ("Failed to create source manager: " +:+ e)
  | None =>
  if negb (sinks_BuildAll_metricSink (argSinks f)) then
    Fatal "Failed to create metric sink"
  else
  match sinks_NewDataSinkManager with
  | Some e => Fatal ("Failed to created sink manager: " +:+ e)
  | None =>
  match getKubernetesAddress (argSources f) with
  | Err e => Fatal ("Failed to get kubernetes address: " +:+ e)
  | Panic msg => Crash msg
  | Ret kubernetesUrl =>
  match manager_NewManager with
  | Some e => Fatal ("Failed to create main manager: " +:+ e)
  | None =>
  match getPodLister kubernetesUrl with
  | Err e => Fatal ("Failed to create podLister: " +:+ e)
  | Panic msg => Crash msg
  | Ret _ => serve f
  end end end end end end end.

End Main.

Arguments getPodLister {KubeConfig} _ _ _.
Arguments main _ _ _ _ _ _ _ {KubeConfig} _ _ _.

End heapster.

(** ** [metrics/core]: the metric model *)

Module core.

(** [time.Time]: nanoseconds since Go's zero [Time]. *)
Definition Time := Z.
Definition IsZero (t : Time) : bool := (t =? 0).
Definition Before (t u : Time) : bool := (t <? u).

Definition minDuration : Z := - 2 ^ 63.
Definition maxDuration : Z := 2 ^ 63 - 1.

(** [t.Sub(u)]: the difference, or the largest (smallest) [Duration] when
    it does not fit. *)
Definition Sub (t u : Time) : Z :=
  if maxDuration <? t - u then maxDuration
  else if t - u <? minDuration then minDuration
  else t - u.

Inductive ValueType := ValueInt64 | ValueFloat.

(** Modelled from the spec: [core.Metric], the schema descriptor, of which
    the decoder uses the name and the value type (§3 "Metric"). *)
Record Metric := mkMetric {
  Name : string;
  MetricValueType : ValueType
}.

(** Modelled from the spec: [core.MetricValue] (§3 "MetricValue"); the
    decoder writes integer samples only. *)
Record MetricValue := mkMetricValue {
  MetricValue_ValueType : ValueType;
  IntValue : Z
}.

(** Modelled from the spec: [core.LabeledMetric], a named [MetricValue]
    plus a label mapping (§3 "LabeledMetric"). *)
Record LabeledMetric := mkLabeledMetric {
  LName : string;
  LLabels : gmap string string;
  LValue : MetricValue
}.

(** Modelled from the spec: [core.MetricSet] (§3 "MetricSet"). *)
Record MetricSet := mkMetricSet {
  CreateTime : Time;
  ScrapeTime : Time;
  Labels : gmap string string;
  MetricValues : gmap string MetricValue;
  LabeledMetrics : list LabeledMetric
}.

(** Modelled from the spec: [core.DataBatch] (§3 "DataBatch"). *)
Record DataBatch := mkDataBatch {
  Timestamp : Time;
  MetricSets : gmap string MetricSet
}.

(** Modelled from the spec: the key builders of [core], after the key
    schema of §3. *)
Definition NodeKey (node : string) : string := "node:" +:+ node.
Definition NodeContainerKey (node container : string) : string :=
  "node:" +:+ node +:+ "/container:" +:+ container.
Definition PodKey (ns pod : string) : string :=
  "namespace:" +:+ ns +:+ "/pod:" +:+ pod.
Definition PodContainerKey (ns pod container : string) : string :=
  "namespace:" +:+ ns +:+ "/pod:" +:+ pod +:+ "/container:" +:+ container.

(** Modelled from the spec: the label keys of [core] (§3 "labels"). *)
Definition LabelMetricSetType : string := "type".
Definition LabelResourceID : string := "resource_id".
Definition LabelNodename : string := "nodename".
Definition LabelHostname : string := "hostname".
Definition LabelHostID : string := "host_id".
Definition LabelPodId : string := "pod_id".
Definition LabelPodName : string := "pod_name".
Definition LabelNamespaceName : string := "namespace_name".
Definition LabelContainerName : string := "container_name".

(** Modelled from the spec: the values of the [type] label the decoder
    writes; §3 calls the second one [node_container]. *)
Definition MetricSetTypeNode : string := "node".
Definition MetricSetTypeSystemContainer : string := "sys_container".
Definition MetricSetTypePod : string := "pod".
Definition MetricSetTypePodContainer : string := "pod_container".

(** Modelled from the spec: the metric descriptors that
    [summary_test.go] checks. *)
Definition MetricCpuUsage := mkMetric "cpu/usage" ValueInt64.
Definition MetricMemoryUsage := mkMetric "memory/usage" ValueInt64.
Definition MetricMemoryWorkingSet := mkMetric "memory/working_set" ValueInt64.
Definition MetricMemoryRSS := mkMetric "memory/rss" ValueInt64.
Definition MetricMemoryPageFaults := mkMetric "memory/page_faults" ValueInt64.
Definition MetricMemoryMajorPageFaults :=
  mkMetric "memory/major_page_faults" ValueInt64.
Definition MetricNetworkRx := mkMetric "network/rx" ValueInt64.
Definition MetricNetworkRxErrors := mkMetric "network/rx_errors" ValueInt64.
Definition MetricNetworkTx := mkMetric "network/tx" ValueInt64.
Definition MetricNetworkTxErrors := mkMetric "network/tx_errors" ValueInt64.
Definition MetricFilesystemAvailable :=
  mkMetric "filesystem/available" ValueInt64.
Definition MetricFilesystemLimit := mkMetric "filesystem/limit" ValueInt64.
Definition MetricFilesystemUsage := mkMetric "filesystem/usage" ValueInt64.

End core.

(** ** [heapster-apiserver/app/server.go]: the health check *)

Module app.
Import core.

Definition minMetricsCount : Z := 1.
Definition maxMetricsDelay : Z := 3 * heapster.Minute.

Section Healthz.

(** [Time.String], the library's rendering of an instant. *)
Variable Time_String : Time -> string.

(** The check that [healthzChecker] registers. [now] is the clock that
    [time.Since] reads, [latest] the result of
    [metricSink.GetLatestDataBatch()]; [None] is the [nil] error. *)
Definition healthzChecker (now : Time) (latest : option DataBatch)
  : option error :=
  match latest with
  | None => Some "could not get the latest data batch"
  | Some batch =>
      if maxMetricsDelay <? Sub now (Timestamp batch) then
        Some ("No current data batch available (latest: "
                +:+ Time_String (Timestamp batch) +:+ ").")
      else if Z.of_nat (size (MetricSets batch)) <? minMetricsCount then
        Some ("Not enough metrics found in the latest data batch: "
                +:+ pretty (Z.of_nat (size (MetricSets batch)))
                +:+ " (expected min. " +:+ pretty minMetricsCount +:+ ") "
                +:+ Time_String (Timestamp batch))
      else None
  end.

(** The handler that [healthz.InstallHandler] mounts on [/healthz]
    answers 200 when the check returns [nil] and 500 otherwise. *)
Definition StatusOK : Z := 200.
Definition StatusInternalServerError : Z := 500.

Definition healthzStatus (now : Time) (latest : option DataBatch) : Z :=
  match healthzChecker now latest with
  | None => StatusOK
  | Some _ => StatusInternalServerError
  end.

End Healthz.

End app.

(** ** [events/sinks/elasticsearch/driver.go] *)

Module elasticsearch.
Import core.

(** [kube_api.Event], reduced to the fields the sink reads. *)
Record ObjectReference := mkObjectReference {
  Kind : string;
  ObjName : string;
  ObjUID : string
}.

Record Event := mkEvent {
  UID : string;
  InvolvedObject : ObjectReference;
  SourceHost : string;
  LastTimestamp : Time;
  Message : string
}.

(** [event_core.EventBatch]; [Events] is a slice of pointers. *)
Record EventBatch := mkEventBatch {
  BatchTimestamp : Time;
  Events : list (option Event)
}.

Record EsSinkPoint := mkEsSinkPoint {
  EventValue : string;
  EventTimestamp : Time;
  EventTags : gmap string string
}.

Section Sink.

(** [json.MarshalIndent(event, "", " ")], the library's encoder. *)
Variable json_MarshalIndent : option Event -> res string.

(** The state behind the sink's two pluggable functions, and the
    functions themselves (the [saveData] and [flushData] fields). *)
Variable World : Type.
Variable saveData : Time -> list EsSinkPoint -> World -> option error * World.
Variable flushData : World -> option error * World.

Definition getEventValue (event : option Event) : res string :=
  match json_MarshalIndent event with
  | Ret bytes => Ret bytes
  | Err e => Err e
  | Panic msg => Panic msg
  end.

(** [eventToPoint]: [Err e] is the result [(nil, e)]. *)
Definition eventToPoint (event : option Event) : res EsSinkPoint :=
  match getEventValue event with
  | Err e => Err e
  | Panic msg => Panic msg
  | Ret value =>
      match event with
      | None => Panic nil_dereference
      | Some ev =>
          let tags : gmap string string := {[ "eventID" := UID ev ]} in
          let tags :=
            if decide (Kind (InvolvedObject ev) = "Pod") then
              <[ LabelPodName := ObjName (InvolvedObject ev) ]>
                (<[ LabelPodId := ObjUID (InvolvedObject ev) ]> tags)
            else tags in
          let tags := <[ LabelHostname := SourceHost ev ]> tags in
          Ret {| EventValue := value;
                 EventTimestamp := LastTimestamp ev;
                 EventTags := tags |}
      end
  end.

(** What the sink has done: the warnings logged, the state of its
    mutex and the world behind [saveData]. *)
Record sinkState := mkSinkState {
  locked : bool;
  warnings : list string;
  world : World
}.

Inductive outcome :=
| Returned (st : sinkState)
| Panicked (msg : string) (st : sinkState).

(** The body of the [for] loop over [eventBatch.Events]. *)
Fixpoint exportLoop (events : list (option Event)) (st : sinkState)
  : outcome :=
  match events with
  | [] => Returned st
  | event :: rest =>
      match eventToPoint event with
      | Panic msg => Panicked msg st
      | Err e =>
          (* the warning is logged, then [point.EventTimestamp] reads
             through the nil [point] *)
          Panicked nil_dereference
            {| locked := locked st;
               warnings := (warnings st ++
                 ["Failed to convert event to point: " +:+ e])%list;
               world := world st |}
      | Ret point =>
          let '(err, w) := saveData (EventTimestamp point) [point] (world st) in
          let log :=
            match err with
            | Some e => (warnings st ++
                ["Failed to export data to ElasticSearch sink: " +:+ e])%list
            | None => warnings st
            end in
          exportLoop rest {| locked := locked st; warnings := log; world := w |}
      end
  end.

Definition unlock (st : sinkState) : sinkState :=
  {| locked := false; warnings := warnings st; world := world st |}.

(** [ExportEvents]: [sink.Lock()], the loop, [sink.flushData()], and the
    deferred [sink.Unlock()] on every way out. *)
Definition ExportEvents (eventBatch : EventBatch) (st : sinkState) : outcome :=
  let st := {| locked := true; warnings := warnings st; world := world st |} in
  match exportLoop (Events eventBatch) st with
  | Returned st' =>
      let '(_, w) := flushData (world st') in
      Returned (unlock {| locked := locked st'; warnings := warnings st'; world := w |})
  | Panicked msg st' => Panicked msg (unlock st')
  end.

End Sink.

End elasticsearch.

(** ** [metrics/sources/summary]: the per-node summary source *)

Module summary.
Import core.

(** *** The kubelet's [stats] document, with the fields that
    [summary_test.go] fills in. A [*uint64] is an [option Z]. *)

Record CPUStats := mkCPUStats {
  CPUTime : Time;
  UsageNanoCores : option Z;
  UsageCoreNanoSeconds : option Z
}.

Record MemoryStats := mkMemoryStats {
  MemoryTime : Time;
  AvailableBytes : option Z;
  UsageBytes : option Z;
  WorkingSetBytes : option Z;
  RSSBytes : option Z;
  PageFaults : option Z;
  MajorPageFaults : option Z
}.

Record NetworkStats := mkNetworkStats {
  NetworkTime : Time;
  RxBytes : option Z;
  RxErrors : option Z;
  TxBytes : option Z;
  TxErrors : option Z
}.

Record FsStats := mkFsStats {
  FsAvailableBytes : option Z;
  CapacityBytes : option Z;
  UsedBytes : option Z;
  InodesFree : option Z;
  InodesUsed : option Z;
  Inodes : option Z
}.

Record ContainerStats := mkContainerStats {
  ContainerName : string;
  ContainerStartTime : Time;
  CPU : option CPUStats;
  Memory : option MemoryStats;
  Rootfs : option FsStats;
  Logs : option FsStats
}.

Record VolumeStats := mkVolumeStats {
  VolumeName : string;
  VolumeFsStats : FsStats
}.

Record PodReference := mkPodReference {
  PodName : string;
  PodNamespace : string
}.

Record PodStats := mkPodStats {
  PodRef : PodReference;
  PodStartTime : Time;
  PodNetwork : option NetworkStats;
  Containers : list ContainerStats;
  PodVolumeStats : list VolumeStats
}.

Record NodeStats := mkNodeStats {
  NodeName : string;
  NodeStartTime : Time;
  NodeCPU : option CPUStats;
  NodeMemory : option MemoryStats;
  NodeNetwork : option NetworkStats;
  NodeFs : option FsStats;
  SystemContainers : list ContainerStats
}.

Record Summary := mkSummary {
  Node : NodeStats;
  Pods : list PodStats
}.

Definition SystemContainerKubelet : string := "kubelet".
Definition SystemContainerRuntime : string := "runtime".
Definition SystemContainerMisc : string := "misc".

(** [NodeInfo] and the source, as [summary_test.go] builds them, without the
    address of the kubelet and its client. *)
Record NodeInfo := mkNodeInfo {
  InfoNodeName : string;
  HostName : string;
  HostID : string;
  KubeletVersion : string
}.

Record summaryMetricsSource := mkSource {
  node : NodeInfo
}.

Definition RootFsKey : string := "/".
Definition LogsKey : string := "logs".
Definition VolumeResourcePrefix : string := "Volume:".

(** *** The decoder *)

(** The conversion [int64(v)] of a [uint64]. *)
Definition int64_of_uint64 (v : Z) : Z :=
  if v <? 2 ^ 63 then v else v - 2 ^ 64.

(** Modelled from the spec: [addIntMetric], the one place where a value
    enters [MetricValues]; a nil pointer is "metric absent" and is skipped
    (§4.1, last decoding rule). *)
Definition addIntMetric (metrics : MetricSet) (metric : Metric)
  (value : option Z) : MetricSet :=
  match value with
  | None => metrics
  | Some v =>
      {| CreateTime := CreateTime metrics;
         ScrapeTime := ScrapeTime metrics;
         Labels := Labels metrics;
         MetricValues :=
           <[ Name metric := mkMetricValue ValueInt64 (int64_of_uint64 v) ]>
             (MetricValues metrics);
         LabeledMetrics := LabeledMetrics metrics |}
  end.

(** Modelled from the spec: [addLabeledIntMetric], the one place where a
    value enters [LabeledMetrics]; nil pointers are skipped here too. *)
Definition addLabeledIntMetric (metrics : MetricSet) (metric : Metric)
  (labels : gmap string string) (value : option Z) : MetricSet :=
  match value with
  | None => metrics
  | Some v =>
      {| CreateTime := CreateTime metrics;
         ScrapeTime := ScrapeTime metrics;
         Labels := Labels metrics;
         MetricValues := MetricValues metrics;
         LabeledMetrics :=
           (LabeledMetrics metrics ++
            [ {| LName := Name metric;
                 LLabels := labels;
                 LValue := mkMetricValue ValueInt64 (int64_of_uint64 v) |} ])%list |}
  end.

(** Modelled from the spec: the CPU rule of §4.1; the metric and the field
    it comes from are those [summary_test.go] checks. *)
Definition decodeCPUStats (metrics : MetricSet) (cpu : option CPUStats)
  : MetricSet :=
  match cpu with
  | None => metrics
  | Some c => addIntMetric metrics MetricCpuUsage (UsageCoreNanoSeconds c)
  end.

(** Modelled from the spec: the memory rule of §4.1, with the five metrics
    of [summary_test.go]. *)
Definition decodeMemoryStats (metrics : MetricSet) (memory : option MemoryStats)
  : MetricSet :=
  match memory with
  | None => metrics
  | Some m =>
      let metrics := addIntMetric metrics MetricMemoryUsage (UsageBytes m) in
      let metrics := addIntMetric metrics MetricMemoryWorkingSet (WorkingSetBytes m) in
      let metrics := addIntMetric metrics MetricMemoryRSS (RSSBytes m) in
      let metrics := addIntMetric metrics MetricMemoryPageFaults (PageFaults m) in
      addIntMetric metrics MetricMemoryMajorPageFaults (MajorPageFaults m)
  end.

(** Modelled from the spec: the network rule (node and pod level), with the
    four metrics of [summary_test.go]. *)
Definition decodeNetworkStats (metrics : MetricSet)
  (network : option NetworkStats) : MetricSet :=
  match network with
  | None => metrics
  | Some n =>
      let metrics := addIntMetric metrics MetricNetworkRx (RxBytes n) in
      let metrics := addIntMetric metrics MetricNetworkRxErrors (RxErrors n) in
      let metrics := addIntMetric metrics MetricNetworkTx (TxBytes n) in
      addIntMetric metrics MetricNetworkTxErrors (TxErrors n)
  end.

(** Modelled from the spec: "per-filesystem statistics are emitted as
    LabeledMetrics with resource_id = ..." (§4.1), three per filesystem
    (available, limit, usage) as [summary_test.go] counts them. *)
Definition decodeFsStats (metrics : MetricSet) (fsKey : string)
  (fs : option FsStats) : MetricSet :=
  match fs with
  | None => metrics
  | Some f =>
      let fsLabels : gmap string string := {[ LabelResourceID := fsKey ]} in
      let metrics :=
        addLabeledIntMetric metrics MetricFilesystemAvailable fsLabels
          (FsAvailableBytes f) in
      let metrics :=
        addLabeledIntMetric metrics MetricFilesystemLimit fsLabels
          (CapacityBytes f) in
      addLabeledIntMetric metrics MetricFilesystemUsage fsLabels (UsedBytes f)
  end.

(** Modelled from the spec: the scrape time of a set is the time its
    samples were observed (§3 "scrapeTime"): that of the first of the CPU,
    memory and network statistics that carries one. *)
Definition nonZeroTime (t : option Time) : option Time :=
  match t with
  | Some t => if IsZero t then None else Some t
  | None => None
  end.

Definition getScrapeTime (cpu : option CPUStats) (memory : option MemoryStats)
  (network : option NetworkStats) : Time :=
  match nonZeroTime (CPUTime <$> cpu) with
  | Some t => t
  | None =>
      match nonZeroTime (MemoryTime <$> memory) with
      | Some t => t
      | None =>
          match nonZeroTime (NetworkTime <$> network) with
          | Some t => t
          | None => 0
          end
      end
  end.

(** Modelled from the spec: the canonical names of the node's system
    containers (§4.1, first decoding rule). *)
Definition getSystemContainerName (c : ContainerStats) : string :=
  if decide (ContainerName c = SystemContainerKubelet) then "kubelet"
  else if decide (ContainerName c = SystemContainerRuntime) then "docker-daemon"
  else if decide (ContainerName c = SystemContainerMisc) then "system"
  else ContainerName c.

(** Modelled from the spec: the set of one container, a node's system
    container or a pod's container: CPU, memory, rootfs and logs (§4.1).
    It starts from the labels of its parent. *)
Definition decodeContainerStats (parentLabels : gmap string string)
  (container : ContainerStats) (isSystemContainer : bool) : MetricSet :=
  let labels :=
    <[ LabelContainerName :=
         if isSystemContainer then getSystemContainerName container
         else ContainerName container ]>
      (<[ LabelMetricSetType :=
            if isSystemContainer then MetricSetTypeSystemContainer
            else MetricSetTypePodContainer ]> parentLabels) in
  let containerMetrics :=
    {| CreateTime := ContainerStartTime container;
       ScrapeTime := getScrapeTime (CPU container) (Memory container) None;
       Labels := labels;
       MetricValues := ∅;
       LabeledMetrics := [] |} in
  let containerMetrics := decodeCPUStats containerMetrics (CPU container) in
  let containerMetrics := decodeMemoryStats containerMetrics (Memory container) in
  let containerMetrics := decodeFsStats containerMetrics RootFsKey (Rootfs container) in
  decodeFsStats containerMetrics LogsKey (Logs container).

(** Modelled from the spec: the set of the node itself. *)
Definition nodeMetricSet (labels : gmap string string) (n : NodeStats)
  : MetricSet :=
  let nodeMetrics :=
    {| CreateTime := NodeStartTime n;
       ScrapeTime := getScrapeTime (NodeCPU n) (NodeMemory n) (NodeNetwork n);
       Labels := <[ LabelMetricSetType := MetricSetTypeNode ]> labels;
       MetricValues := ∅;
       LabeledMetrics := [] |} in
  let nodeMetrics := decodeCPUStats nodeMetrics (NodeCPU n) in
  let nodeMetrics := decodeMemoryStats nodeMetrics (NodeMemory n) in
  let nodeMetrics := decodeNetworkStats nodeMetrics (NodeNetwork n) in
  decodeFsStats nodeMetrics RootFsKey (NodeFs n).

(** Modelled from the spec: node-level statistics and the system
    containers, stored under [node:<n>] and [node:<n>/container:<c>] with
    [c] the canonical name. *)
Definition decodeNodeStats (metrics : gmap string MetricSet)
  (labels : gmap string string) (n : NodeStats) : gmap string MetricSet :=
  let metrics := <[ NodeKey (NodeName n) := nodeMetricSet labels n ]> metrics in
  foldl (fun metrics container =>
           <[ NodeContainerKey (NodeName n) (getSystemContainerName container)
              := decodeContainerStats labels container true ]> metrics)
        metrics (SystemContainers n).

(** Modelled from the spec: the set of a pod: its network statistics and,
    per volume, the filesystem statistics under
    [resource_id = "Volume:<name>"] (§4.1, third decoding rule). *)
Definition podMetricSet (nodeLabels : gmap string string) (pod : PodStats)
  : MetricSet :=
  let labels :=
    <[ LabelNamespaceName := PodNamespace (PodRef pod) ]>
      (<[ LabelPodName := PodName (PodRef pod) ]>
         (<[ LabelMetricSetType := MetricSetTypePod ]> nodeLabels)) in
  let podMetrics :=
    {| CreateTime := PodStartTime pod;
       ScrapeTime := getScrapeTime None None (PodNetwork pod);
       Labels := labels;
       MetricValues := ∅;
       LabeledMetrics := [] |} in
  let podMetrics := decodeNetworkStats podMetrics (PodNetwork pod) in
  foldl (fun podMetrics vol =>
           decodeFsStats podMetrics (VolumeResourcePrefix +:+ VolumeName vol)
             (Some (VolumeFsStats vol)))
        podMetrics (PodVolumeStats pod).

(** Modelled from the spec: one container entry of a pod. A container's
    identity is [(name, startTime)]: when the key is already taken by an
    entry that started later, the entry at hand is a terminated container
    and is discarded (§4.1, fourth decoding rule). *)
Definition decodePodContainer (pod : PodStats) (podLabels : gmap string string)
  (metrics : gmap string MetricSet) (container : ContainerStats)
  : gmap string MetricSet :=
  let key := PodContainerKey (PodNamespace (PodRef pod)) (PodName (PodRef pod))
               (ContainerName container) in
  match metrics !! key with
  | Some existing =>
      if Before (ContainerStartTime container) (CreateTime existing) then metrics
      else <[ key := decodeContainerStats podLabels container false ]> metrics
  | None => <[ key := decodeContainerStats podLabels container false ]> metrics
  end.

(** Modelled from the spec: a pod and its containers, stored under
    [namespace:<ns>/pod:<p>] and [namespace:<ns>/pod:<p>/container:<c>]. *)
Definition decodePodStats (metrics : gmap string MetricSet)
  (nodeLabels : gmap string string) (pod : PodStats) : gmap string MetricSet :=
  let podMetrics := podMetricSet nodeLabels pod in
  let metrics :=
    <[ PodKey (PodNamespace (PodRef pod)) (PodName (PodRef pod)) := podMetrics ]>
      metrics in
  foldl (decodePodContainer pod (Labels podMetrics)) metrics (Containers pod).

(** Modelled from the spec: the identity labels of the node (§3 "labels"),
    which every set of the batch inherits. *)
Definition nodeLabels (this : summaryMetricsSource) : gmap string string :=
  <[ LabelHostID := HostID (node this) ]>
    (<[ LabelHostname := HostName (node this) ]>
       {[ LabelNodename := InfoNodeName (node this) ]}).

(** Modelled from the spec: [decodeSummary], of which only the test is at
    hand: the node, then every pod in the order of the document. *)
Definition decodeSummary (this : summaryMetricsSource) (s : Summary)
  : gmap string MetricSet :=
  let labels := nodeLabels this in
  foldl (fun metrics pod => decodePodStats metrics labels pod)
        (decodeNodeStats ∅ labels (Node s)) (Pods s).

End summary.

(** ** [summary_test.go]: the documents of the two tests *)

Module summary_test.
Import core summary.

Definition offsetCPUUsageCores : Z := 0.
Definition offsetCPUUsageCoreSeconds : Z := 1.
Definition offsetMemPageFaults : Z := 2.
Definition offsetMemMajorPageFaults : Z := 3.
Definition offsetMemUsageBytes : Z := 4.
Definition offsetMemRSSBytes : Z := 5.
Definition offsetMemWorkingSetBytes : Z := 6.
Definition offsetNetRxBytes : Z := 7.
Definition offsetNetRxErrors : Z := 8.
Definition offsetNetTxBytes : Z := 9.
Definition offsetNetTxErrors : Z := 10.
Definition offsetFsUsed : Z := 11.
Definition offsetFsCapacity : Z := 12.
Definition offsetFsAvailable : Z := 13.

Definition seedNode : Z := 0.
Definition seedRuntime : Z := 100.
Definition seedKubelet : Z := 200.
Definition seedMisc : Z := 300.
Definition seedPod0 : Z := 1000.
Definition seedPod0Container0 : Z := 2000.
Definition seedPod0Container1 : Z := 2001.
Definition seedPod1 : Z := 3000.
Definition seedPod1Container : Z := 4000.
Definition seedPod2 : Z := 5000.
Definition seedPod2Container0 : Z := 6000.
Definition seedPod2Container1 : Z := 7000.

Definition namespace0 : string := "test0".
Definition namespace1 : string := "test1".
Definition pName0 : string := "pod0".
Definition pName1 : string := "pod1".
Definition pName2 : string := "pod0".
Definition cName00 : string := "c0".
Definition cName01 : string := "c1".
Definition cName10 : string := "c0".
Definition cName20 : string := "c1".
Definition cName21 : string := "runtime".

(** [time.Now()] when the test ran: any instant will do. *)
Definition scrapeTime : Time := 63600000000000000000.
Definition startTime : Time := scrapeTime - heapster.Minute.

Definition nodeInfo : NodeInfo :=
  {| InfoNodeName := "test"; HostName := "test-hostname";
     HostID := "1234567890"; KubeletVersion := "1.2" |}.

Definition testingSummaryMetricsSource : summaryMetricsSource :=
  {| node := nodeInfo |}.

(** [uint64(seed + offset)] behind a fresh pointer. *)
Definition uint64Val (seed offset : Z) : option Z :=
  Some ((seed + offset) mod 2 ^ 64).

Definition Millisecond : Z := 1000000.

Definition scale (v : option Z) : option Z :=
  (fun x => (x * Millisecond) mod 2 ^ 64) <$> v.

Definition genTestSummaryZeroCPU (seed : Z) : option CPUStats :=
  Some {| CPUTime := scrapeTime;
          UsageNanoCores := uint64Val seed (- seed);
          UsageCoreNanoSeconds := scale (uint64Val seed offsetCPUUsageCoreSeconds) |}.

Definition genTestSummaryCPU (seed : Z) : option CPUStats :=
  Some {| CPUTime := scrapeTime;
          UsageNanoCores := scale (uint64Val seed offsetCPUUsageCores);
          UsageCoreNanoSeconds := uint64Val seed offsetCPUUsageCoreSeconds |}.

Definition genTestSummaryZeroMemory (seed : Z) : option MemoryStats :=
  Some {| MemoryTime := scrapeTime;
          AvailableBytes := None;
          UsageBytes := uint64Val seed (- seed);
          WorkingSetBytes := uint64Val seed offsetMemWorkingSetBytes;
          RSSBytes := uint64Val seed offsetMemRSSBytes;
          PageFaults := uint64Val seed offsetMemPageFaults;
          MajorPageFaults := uint64Val seed offsetMemMajorPageFaults |}.

Definition genTestSummaryMemory (seed : Z) : option MemoryStats :=
  Some {| MemoryTime := scrapeTime;
          AvailableBytes := None;
          UsageBytes := uint64Val seed offsetMemUsageBytes;
          WorkingSetBytes := uint64Val seed offsetMemWorkingSetBytes;
          RSSBytes := uint64Val seed offsetMemRSSBytes;
          PageFaults := uint64Val seed offsetMemPageFaults;
          MajorPageFaults := uint64Val seed offsetMemMajorPageFaults |}.

Definition genTestSummaryNetwork (seed : Z) : option NetworkStats :=
  Some {| NetworkTime := scrapeTime;
          RxBytes := uint64Val seed offsetNetRxBytes;
          RxErrors := uint64Val seed offsetNetRxErrors;
          TxBytes := uint64Val seed offsetNetTxBytes;
          TxErrors := uint64Val seed offsetNetTxErrors |}.

Definition genTestSummaryFsStats (seed : Z) : FsStats :=
  {| FsAvailableBytes := uint64Val seed offsetFsAvailable;
     CapacityBytes := uint64Val seed offsetFsCapacity;
     UsedBytes := uint64Val seed offsetFsUsed;
     InodesFree := None; InodesUsed := None; Inodes := None |}.

Definition genTestSummaryTerminatedContainer (name : string) (seed : Z)
  : ContainerStats :=
  {| ContainerName := name;
     ContainerStartTime := startTime - heapster.Minute;
     CPU := genTestSummaryZeroCPU seed;
     Memory := genTestSummaryZeroMemory seed;
     Rootfs := Some (genTestSummaryFsStats seed);
     Logs := Some (genTestSummaryFsStats seed) |}.

Definition genTestSummaryContainer (name : string) (seed : Z) : ContainerStats :=
  {| ContainerName := name;
     ContainerStartTime := startTime;
     CPU := genTestSummaryCPU seed;
     Memory := genTestSummaryMemory seed;
     Rootfs := Some (genTestSummaryFsStats seed);
     Logs := Some (genTestSummaryFsStats seed) |}.

(** The document of [TestDecodeSummaryMetrics]. *)
Definition decodeTestSummary : Summary :=
  {| Node :=
       {| NodeName := InfoNodeName nodeInfo;
          NodeStartTime := startTime;
          NodeCPU := genTestSummaryCPU seedNode;
          NodeMemory := genTestSummaryMemory seedNode;
          NodeNetwork := genTestSummaryNetwork seedNode;
          NodeFs := Some (genTestSummaryFsStats seedNode);
          SystemContainers :=
            [ genTestSummaryContainer SystemContainerKubelet seedKubelet;
              genTestSummaryContainer SystemContainerRuntime seedRuntime;
              genTestSummaryContainer SystemContainerMisc seedMisc ] |};
     Pods :=
       [ {| PodRef := {| PodName := pName0; PodNamespace := namespace0 |};
            PodStartTime := startTime;
            PodNetwork := genTestSummaryNetwork seedPod0;
            Containers :=
              [ genTestSummaryContainer cName00 seedPod0Container0;
                genTestSummaryContainer cName01 seedPod0Container1;
                genTestSummaryTerminatedContainer cName00 seedPod0Container0 ];
            PodVolumeStats := [] |};
         {| PodRef := {| PodName := pName1; PodNamespace := namespace0 |};
            PodStartTime := startTime;
            PodNetwork := genTestSummaryNetwork seedPod1;
            Containers := [ genTestSummaryContainer cName10 seedPod1Container ];
            PodVolumeStats :=
              [ {| VolumeName := "A"; VolumeFsStats := genTestSummaryFsStats seedPod1 |};
                {| VolumeName := "B"; VolumeFsStats := genTestSummaryFsStats seedPod1 |} ] |};
         {| PodRef := {| PodName := pName2; PodNamespace := namespace1 |};
            PodStartTime := startTime;
            PodNetwork := genTestSummaryNetwork seedPod2;
            Containers :=
              [ genTestSummaryContainer cName20 seedPod2Container0;
                genTestSummaryContainer cName21 seedPod2Container1 ];
            PodVolumeStats := [] |} ] |}.

(** The document of [TestScrapeSummaryMetrics]. *)
Definition scrapeTestSummary : Summary :=
  {| Node :=
       {| NodeName := InfoNodeName nodeInfo;
          NodeStartTime := startTime;
          NodeCPU := None; NodeMemory := None; NodeNetwork := None;
          NodeFs := None; SystemContainers := [] |};
     Pods :=
       [ {| PodRef := {| PodName := "my-pod"; PodNamespace := "my-namespace" |};
            PodStartTime := 0;
            PodNetwork := None;
            Containers :=
              [ {| ContainerName := "my-container";
                   ContainerStartTime := 0;
                   CPU := None;
                   Memory :=
                     Some {| MemoryTime := 0;
                             AvailableBytes := uint64Val 1000 100;
                             UsageBytes := uint64Val 1000 100;
                             WorkingSetBytes := uint64Val 1000 100;
                             RSSBytes := None; PageFaults := None;
                             MajorPageFaults := None |};
                   Rootfs := None; Logs := None |} ];
            PodVolumeStats :=
              [ {| VolumeName := "data";
                   VolumeFsStats :=
                     {| FsAvailableBytes := uint64Val 1030 100;
                        UsedBytes := uint64Val 13240 100;
                        CapacityBytes := uint64Val 2453 100;
                        InodesFree := uint64Val 10340 100;
                        InodesUsed := uint64Val 103420 100;
                        Inodes := uint64Val 103420 100 |} |} ] |} ] |}.

End summary_test.


(** ** Concrete inputs used by the examples below *)

Module examples.
Import core heapster.

Definition kubernetesUrl : URL :=
  {| Scheme := "https"; Host := "kubernetes.default"; Path := ""; RawQuery := "" |}.
Definition summaryUrl : URL :=
  {| Scheme := "https"; Host := "10.0.0.1:443"; Path := "";
     RawQuery := "kubeletHttps=true" |}.
Definition otherUrl : URL :=
  {| Scheme := "http"; Host := "cadvisor:8080"; Path := ""; RawQuery := "" |}.

Definition kubernetesSource : Uri := {| Key := "kubernetes"; Val := kubernetesUrl |}.
Definition summarySource : Uri :=
  {| Key := "kubernetes.summary_api"; Val := summaryUrl |}.
Definition otherSource : Uri := {| Key := "cadvisor"; Val := otherUrl |}.

(** The default flags with the given sources. *)
Definition defaultFlags (srcs : Uris) : Flags :=
  {| argMetricResolution := 60 * Second;
     argPort := 8082;
     argIp := "";
     argMaxProcs := 0;
     argTLSCertFile := "";
     argTLSKeyFile := "";
     argTLSClientCAFile := "";
     argAllowedUsers := "";
     argSources := srcs;
     argSinks := [];
     argProcessors := "kubernetes" |}.

(** [main] when every constructor of the other packages succeeds. *)
Definition mainAllOk : Flags -> startup :=
  main (fun _ => None) None (fun _ => true) None None None None
    (fun url => inl url) (fun _ => None).

(** A stand-in for [Time.String]: the instant in decimal. *)
Definition decimalTime (t : Time) : string := pretty t.

Definition emptySet : MetricSet :=
  {| CreateTime := 0; ScrapeTime := 0; Labels := ∅;
     MetricValues := ∅; LabeledMetrics := [] |}.

(** A batch of one set, taken at instant [t]. *)
Definition batchAt (t : Time) : DataBatch :=
  {| Timestamp := t; MetricSets := {[ "node:test" := emptySet ]} |}.

Import elasticsearch.

Definition podEvent : Event :=
  {| UID := "e-1";
     InvolvedObject := {| Kind := "Pod"; ObjName := "pod0"; ObjUID := "p-1" |};
     SourceHost := "test-hostname";
     LastTimestamp := 1000;
     Message := "Started" |}.

(** A stand-in for [json.MarshalIndent] on a [*kube_api.Event]: like the
    library's encoder it returns no error for an event, and a nil pointer
    encodes as [null]. *)
Definition constantMarshal (e : option Event) : res string :=
  match e with
  | Some ev => Ret (Message ev)
  | None => Ret "null"
  end.

(** A sink whose world is the list of points saved so far. *)
Definition recordingSave (_ : Time) (points : list EsSinkPoint)
  (w : list EsSinkPoint) : option error * list EsSinkPoint :=
  (None, (w ++ points)%list).
Definition recordingFlush (w : list EsSinkPoint)
  : option error * list EsSinkPoint := (None, w).

Definition freshSink : sinkState (list EsSinkPoint) :=
  {| locked := false; warnings := []; world := [] |}.

End examples.

(** ** Vocabulary for the statements about the decoder *)

Module decoded.
Import core summary.

Definition podKey (pod : PodStats) : string :=
  PodKey (PodNamespace (PodRef pod)) (PodName (PodRef pod)).

Definition containerKey (pod : PodStats) (c : ContainerStats) : string :=
  PodContainerKey (PodNamespace (PodRef pod)) (PodName (PodRef pod))
    (ContainerName c).

(** The keys under which [decodePodStats] stores the sets of a pod. *)
Definition podKeys (pod : PodStats) : list string :=
  podKey pod :: (containerKey pod <$> Containers pod).

(** The labels a pod hands down to its containers. *)
Definition podLabels (this : summaryMetricsSource) (pod : PodStats)
  : gmap string string :=
  Labels (podMetricSet (nodeLabels this) pod).

(** A pod, and a document, with other entries. *)
Definition withContainers (pod : PodStats) (cs : list ContainerStats) : PodStats :=
  {| PodRef := PodRef pod;
     PodStartTime := PodStartTime pod;
     PodNetwork := PodNetwork pod;
     Containers := cs;
     PodVolumeStats := PodVolumeStats pod |}.

Definition withPods (s : Summary) (ps : list PodStats) : Summary :=
  {| Node := Node s; Pods := ps |}.

(** What decoding one container entry of [pod] does to the entry stored
    under the key [k]. *)
Definition cellStep (pod : PodStats) (labels : gmap string string) (k : string)
  (cur : option MetricSet) (c : ContainerStats) : option MetricSet :=
  if decide (k = containerKey pod c) then
    match cur with
    | Some existing =>
        if Before (ContainerStartTime c) (CreateTime existing) then cur
        else Some (decodeContainerStats labels c false)
    | None => Some (decodeContainerStats labels c false)
    end
  else cur.

(** Where a set of the batch comes from. *)
Inductive origin :=
| FromNode
| FromSystemContainer (c : ContainerStats)
| FromPod (pod : PodStats)
| FromPodContainer (pod : PodStats) (c : ContainerStats).

Definition originIn (s : Summary) (o : origin) : Prop :=
  match o with
  | FromNode => True
  | FromSystemContainer c => c ∈ SystemContainers (Node s)
  | FromPod pod => pod ∈ Pods s
  | FromPodContainer pod c => pod ∈ Pods s /\ c ∈ Containers pod
  end.

Definition originKey (s : Summary) (o : origin) : string :=
  match o with
  | FromNode => NodeKey (NodeName (Node s))
  | FromSystemContainer c =>
      NodeContainerKey (NodeName (Node s)) (getSystemContainerName c)
  | FromPod pod => podKey pod
  | FromPodContainer pod c => containerKey pod c
  end.

Definition originType (o : origin) : string :=
  match o with
  | FromNode => MetricSetTypeNode
  | FromSystemContainer _ => MetricSetTypeSystemContainer
  | FromPod _ => MetricSetTypePod
  | FromPodContainer _ _ => MetricSetTypePodContainer
  end.

Definition originSet (this : summaryMetricsSource) (s : Summary) (o : origin)
  : MetricSet :=
  match o with
  | FromNode => nodeMetricSet (nodeLabels this) (Node s)
  | FromSystemContainer c => decodeContainerStats (nodeLabels this) c true
  | FromPod pod => podMetricSet (nodeLabels this) pod
  | FromPodContainer pod c => decodeContainerStats (podLabels this pod) c false
  end.

(** The statistics pointers of the document behind a set: a pod has no
    CPU or memory statistics of its own, a container no network ones. *)
Definition originCPU (s : Summary) (o : origin) : option CPUStats :=
  match o with
  | FromNode => NodeCPU (Node s)
  | FromSystemContainer c | FromPodContainer _ c => CPU c
  | FromPod _ => None
  end.

Definition originMemory (s : Summary) (o : origin) : option MemoryStats :=
  match o with
  | FromNode => NodeMemory (Node s)
  | FromSystemContainer c | FromPodContainer _ c => Memory c
  | FromPod _ => None
  end.

Definition originNetwork (s : Summary) (o : origin) : option NetworkStats :=
  match o with
  | FromNode => NodeNetwork (Node s)
  | FromPod pod => PodNetwork pod
  | FromSystemContainer _ | FromPodContainer _ _ => None
  end.

(** The filesystem statistics pointers behind a set, by resource id. *)
Definition originFs (s : Summary) (o : origin) : list (string * option FsStats) :=
  match o with
  | FromNode => [(RootFsKey, NodeFs (Node s))]
  | FromSystemContainer c | FromPodContainer _ c =>
      [(RootFsKey, Rootfs c); (LogsKey, Logs c)]
  | FromPod pod =>
      (fun vol => (VolumeResourcePrefix +:+ VolumeName vol, Some (VolumeFsStats vol)))
        <$> PodVolumeStats pod
  end.

(** The number the document holds for a metric name: [None] as soon as a
    pointer on the way to it is nil. *)
Definition statistic (s : Summary) (o : origin) (name : string) : option Z :=
  if decide (name = Name MetricCpuUsage) then
    originCPU s o ≫= UsageCoreNanoSeconds
  else if decide (name = Name MetricMemoryUsage) then
    originMemory s o ≫= UsageBytes
  else if decide (name = Name MetricMemoryWorkingSet) then
    originMemory s o ≫= WorkingSetBytes
  else if decide (name = Name MetricMemoryRSS) then
    originMemory s o ≫= RSSBytes
  else if decide (name = Name MetricMemoryPageFaults) then
    originMemory s o ≫= PageFaults
  else if decide (name = Name MetricMemoryMajorPageFaults) then
    originMemory s o ≫= MajorPageFaults
  else if decide (name = Name MetricNetworkRx) then
    originNetwork s o ≫= RxBytes
  else if decide (name = Name MetricNetworkRxErrors) then
    originNetwork s o ≫= RxErrors
  else if decide (name = Name MetricNetworkTx) then
    originNetwork s o ≫= TxBytes
  else if decide (name = Name MetricNetworkTxErrors) then
    originNetwork s o ≫= TxErrors
  else None.

Definition intValue (v : Z) : MetricValue :=
  mkMetricValue ValueInt64 (int64_of_uint64 v).

(** One labeled sample of a filesystem, if the number is there. *)
Definition fsSample (metric : Metric) (fsKey : string) (value : option Z)
  : list LabeledMetric :=
  match value with
  | Some v =>
      [ {| LName := Name metric;
           LLabels := {[ LabelResourceID := fsKey ]};
           LValue := intValue v |} ]
  | None => []
  end.

(** The labeled samples of one filesystem: available, limit and usage. *)
Definition fsLabeledMetrics (fsKey : string) (fs : option FsStats)
  : list LabeledMetric :=
  match fs with
  | Some f =>
      (fsSample MetricFilesystemAvailable fsKey (FsAvailableBytes f)
       ++ fsSample MetricFilesystemLimit fsKey (CapacityBytes f)
       ++ fsSample MetricFilesystemUsage fsKey (UsedBytes f))%list
  | None => []
  end.

Definition volumeLabeledMetrics (vol : VolumeStats) : list LabeledMetric :=
  fsLabeledMetrics (VolumeResourcePrefix +:+ VolumeName vol)
    (Some (VolumeFsStats vol)).


(** The resource id of a labeled sample. *)
Definition resourceID (lm : LabeledMetric) : option string :=
  LLabels lm !! LabelResourceID.

(** The entry under a key started before the container [new] did, or
    there is none. *)
Definition startedBefore (new : ContainerStats) (cur : option MetricSet) : Prop :=
  match cur with
  | Some e => CreateTime e < ContainerStartTime new
  | None => True
  end.

(** The entry under a key did not start before [new]. *)
Definition startedSince (new : ContainerStats) (cur : option MetricSet) : Prop :=
  match cur with
  | Some e => ContainerStartTime new <= CreateTime e
  | None => False
  end.

(** Two runs of the decoder agree under a key, or both still hold
    something older than [new] there. *)
Definition agreeBefore (new : ContainerStats) (a b : option MetricSet) : Prop :=
  a = b \/ (startedBefore new a /\ startedBefore new b).

(** Reading a key by the grammar of §3: the key is cut at its slashes and
    each part has to carry its tag. *)
Fixpoint segments (s : string) : list string :=
  match s with
  | EmptyString => [EmptyString]
  | String a s' =>
      if decide (a = "/"%char) then EmptyString :: segments s'
      else match segments s' with
           | h :: t => String a h :: t
           | [] => [String a EmptyString]
           end
  end.

Definition keyType (k : string) : option string :=
  match segments k with
  | [a] =>
      if String.prefix "node:" a then Some MetricSetTypeNode
      else if String.prefix "namespace:" a then Some "namespace"
      else if decide (a = "cluster") then Some "cluster"
      else None
  | [a; b] =>
      if String.prefix "node:" a && String.prefix "container:" b
      then Some MetricSetTypeSystemContainer
      else if String.prefix "namespace:" a && String.prefix "pod:" b
      then Some MetricSetTypePod
      else None
  | [a; b; c] =>
      if String.prefix "namespace:" a && String.prefix "pod:" b
         && String.prefix "container:" c
      then Some MetricSetTypePodContainer
      else None
  | _ => None
  end.

(** A name without a slash, as the names of nodes, namespaces, pods and
    containers are. *)
Fixpoint slashFree (s : string) : bool :=
  match s with
  | EmptyString => true
  | String a s' => negb (bool_decide (a = "/"%char)) && slashFree s'
  end.

Definition slashFreeContainers (cs : list ContainerStats) : bool :=
  forallb (fun c => slashFree (ContainerName c)) cs.

Definition slashFreeNames (s : Summary) : bool :=
  slashFree (NodeName (Node s))
  && slashFreeContainers (SystemContainers (Node s))
  && forallb (fun pod =>
                slashFree (PodNamespace (PodRef pod))
                && slashFree (PodName (PodRef pod))
                && slashFreeContainers (Containers pod)) (Pods s).

End decoded.

(** ** A sink that records what is asked of it *)

Module recording.
Import core elasticsearch.

(** A call of one of the two pluggable functions of the sink. *)
Inductive call :=
| Save (date : Time) (sinkData : list EsSinkPoint)
| Flush.

Section Recorder.

(** Which saves fail, and whether the flush does. *)
Variable saveError : Time -> list EsSinkPoint -> option error.
Variable flushError : option error.

Definition recordSave (date : Time) (sinkData : list EsSinkPoint)
  (w : list call) : option error * list call :=
  (saveError date sinkData, (w ++ [Save date sinkData])%list).

Definition recordFlush (w : list call) : option error * list call :=
  (flushError, (w ++ [Flush])%list).

(** The warnings of the saves that fail, one point at a time. *)
Definition saveWarnings (points : list EsSinkPoint) : list string :=
  omap (fun p =>
          (fun e => "Failed to export data to ElasticSearch sink: " +:+ e)
            <$> saveError (EventTimestamp p) [p]) points.

End Recorder.

(** The state in which [ExportEvents] leaves the sink, on either way out. *)
Definition finalState {World : Type} (o : outcome World) : sinkState World :=
  match o with
  | Returned _ st => st
  | Panicked _ _ st => st
  end.

End recording.

(** ** [summary_test.go]: the checks of the tests *)

Module summary_checks.
Import core summary.

(** [strings.HasPrefix(s, prefix)]. *)
Definition HasPrefix (s prefix : string) : bool := String.prefix prefix s.

(** [labels[key]] on a Go map of strings: the empty string when the key is
    missing. *)
Definition labelOf (labels : gmap string string) (key : string) : string :=
  default "" (labels !! key).

(** What an assertion of the test helpers comes to. *)
Inductive checked :=
| Passed
| Missing
| NotEqual (expected actual : Z).

(** [assert.Equal(t, value, actual)] on two [int64]. *)
Definition assertEqual (value actual : Z) : checked :=
  if decide (value = actual) then Passed else NotEqual value actual.

(** [checkIntMetric]. *)
Definition checkIntMetric (metrics : MetricSet) (metric : Metric) (value : Z)
  : checked :=
  match MetricValues metrics !! Name metric with
  | None => Missing
  | Some m => assertEqual value (IntValue m)
  end.

(** The loop of [checkFsMetric]: the first labeled metric of that name and
    resource id decides. *)
Fixpoint checkFsLoop (labeled : list LabeledMetric) (label : string)
  (metric : Metric) (value : Z) : checked :=
  match labeled with
  | [] => Missing
  | m :: rest =>
      if decide (LName m = Name metric)
      then if decide (labelOf (LLabels m) LabelResourceID = label)
           then assertEqual value (IntValue (LValue m))
           else checkFsLoop rest label metric value
      else checkFsLoop rest label metric value
  end.

(** [checkFsMetric]. *)
Definition checkFsMetric (metrics : MetricSet) (label : string) (metric : Metric)
  (value : Z) : checked :=
  checkFsLoop (LabeledMetrics metrics) label metric value.

(** The assertion in the last loop of [TestScrapeSummaryMetrics]:
    [strings.HasPrefix("Volume:data", labeledMetric.Labels["resource_id"])]. *)
Definition volumeDataAssertion (labeledMetric : LabeledMetric) : bool :=
  HasPrefix "Volume:data" (labelOf (LLabels labeledMetric) "resource_id").

End summary_checks.

(** ** More concrete inputs *)

Module more_examples.
Import core elasticsearch.

Definition nodeEvent : Event :=
  {| UID := "e-2";
     InvolvedObject := {| Kind := "Node"; ObjName := "test"; ObjUID := "n-1" |};
     SourceHost := "test-hostname";
     LastTimestamp := 2000;
     Message := "NodeReady" |}.

(** A service whose saves for the instant 1000 time out. *)
Definition saveTimesOut (date : Time) (_ : list EsSinkPoint) : option error :=
  if date =? 1000 then Some "timeout" else None.

End more_examples.

(** ** A document with two entries for one pod *)

Module more_documents.
Import core summary summary_test.




End more_documents.

(** * Properties *)

Import core heapster.

(** ** Start-up: [validateFlags], [main], [getKubernetesAddress] *)

Lemma nonempty_true (s : string) : nonempty s = true <-> s <> "".
Proof.
  unfold nonempty. rewrite negb_true_iff, bool_decide_eq_false. tauto.
Qed.

Lemma isempty_true (s : string) : isempty s = true <-> s = "".
Proof. unfold isempty. apply bool_decide_eq_true. Qed.

Lemma nonempty_isempty (s : string) : nonempty s = negb (isempty s).
Proof. reflexivity. Qed.

(** C6. [validateFlags] returns an error exactly on the definitional
    misconfigurations: a metric resolution below five seconds, exactly one of
    the TLS certificate and key files, or a client CA file without a
    certificate; and [main] then ends in [glog.Fatal] with that error,
    whatever the other packages would do. *)
Theorem validateFlags_error_iff
  (sources_BuildAll : Uris -> option error) (sources_NewSourceManager : option error)
  (sinks_BuildAll_metricSink : Uris -> bool)
  (sinks_NewDataSinkManager manager_NewManager : option error)
  (newAuthHandler_pprof newAuthHandler_prometheus : option error)
  (KubeConfig : Type) (kube_config_GetKubeClientConfig : URL -> KubeConfig + error)
  (kube_client_NewOrDie : KubeConfig -> option string)
  (f : Flags) :
  (is_Some (validateFlags f) <->
     argMetricResolution f < 5 * Second
     \/ (argTLSCertFile f <> "" /\ argTLSKeyFile f = "")
     \/ (argTLSCertFile f = "" /\ argTLSKeyFile f <> "")
     \/ (argTLSClientCAFile f <> "" /\ argTLSCertFile f = ""))
  /\ match validateFlags f with
     | Some e =>
         main sources_BuildAll sources_NewSourceManager sinks_BuildAll_metricSink
           sinks_NewDataSinkManager manager_NewManager
           newAuthHandler_pprof newAuthHandler_prometheus
           kube_config_GetKubeClientConfig kube_client_NewOrDie f
         = Fatal e
     | None => True
     end.
Proof.
  split.
  - unfold validateFlags.
    destruct (Z.ltb_spec (argMetricResolution f) (5 * Second)) as [Hr|Hr].
    { split; [intros _; by left | intros _; eauto]. }
    destruct (decide (argTLSCertFile f = "")) as [Hc|Hc];
      destruct (decide (argTLSKeyFile f = "")) as [Hk|Hk];
      destruct (decide (argTLSClientCAFile f = "")) as [Ha|Ha];
      rewrite ?nonempty_isempty;
      repeat match goal with
        | H : ?s = "" |- context [isempty ?s] =>
            rewrite (proj2 (isempty_true s) H)
        | H : ?s <> "" |- context [isempty ?s] =>
            replace (isempty s) with false
              by (symmetry; apply bool_decide_eq_false; exact H)
        end; simpl;
      (split; [intros [e He]; try discriminate He; tauto
              | intros [?|[[? ?]|[[? ?]|[? ?]]]]; try lia; try congruence; eauto]).
  - unfold main. destruct (validateFlags f); done.
Qed.

(** C7, as the claim states it, fails: with the default flags and two
    kubernetes sources, and every other package succeeding, [main] ends in
    [glog.Fatal]. *)
Lemma two_sources_are_fatal :
  validateFlags (examples.defaultFlags [examples.kubernetesSource; examples.summarySource])
    = None
  /\ List.length
       (argSources (examples.defaultFlags [examples.kubernetesSource; examples.summarySource]))
     = 2%nat
  /\ examples.mainAllOk
       (examples.defaultFlags [examples.kubernetesSource; examples.summarySource])
     = Fatal "Wrong number of sources specified".
Proof. repeat split; vm_compute; reflexivity. Qed.

(** C7, amended. With flags that pass [validateFlags], [main] ends in the
    fatal error "Wrong number of sources specified" exactly when the number of
    [--source] URIs is not one: no source and several sources alike. *)
Theorem main_wants_one_source
  (sources_BuildAll : Uris -> option error) (sources_NewSourceManager : option error)
  (sinks_BuildAll_metricSink : Uris -> bool)
  (sinks_NewDataSinkManager manager_NewManager : option error)
  (newAuthHandler_pprof newAuthHandler_prometheus : option error)
  (KubeConfig : Type) (kube_config_GetKubeClientConfig : URL -> KubeConfig + error)
  (kube_client_NewOrDie : KubeConfig -> option string)
  (f : Flags) :
  validateFlags f = None ->
  (main sources_BuildAll sources_NewSourceManager sinks_BuildAll_metricSink
     sinks_NewDataSinkManager manager_NewManager
     newAuthHandler_pprof newAuthHandler_prometheus
     kube_config_GetKubeClientConfig kube_client_NewOrDie f
   = Fatal "Wrong number of sources specified"
   <-> List.length (argSources f) <> 1%nat).
Proof.
  intros Hv. unfold main. rewrite Hv.
  destruct (Nat.eqb_spec (List.length (argSources f)) 1) as [Hl|Hl]; simpl.
  2: { split; [intros _; exact Hl | reflexivity]. }
  split; [|intros Hne; by destruct Hne].
  intros Hfatal. exfalso.
  repeat match type of Hfatal with
    | match ?x with _ => _ end = _ => destruct x
    | (if ?b then _ else _) = _ => destruct b
    end; try discriminate Hfatal.
  unfold serve, listenTLS in Hfatal.
  repeat match type of Hfatal with
    | match ?x with _ => _ end = _ => destruct x
    | (if ?b then _ else _) = _ => destruct b
    end; discriminate Hfatal.
Qed.

(** The theorem at work: no source, and three sources. *)
Lemma main_wants_one_source_witness :
  examples.mainAllOk (examples.defaultFlags []) = Fatal "Wrong number of sources specified"
  /\ examples.mainAllOk
       (examples.defaultFlags
          [examples.otherSource; examples.kubernetesSource; examples.summarySource])
     = Fatal "Wrong number of sources specified".
Proof.
  split.
  - apply (main_wants_one_source (fun _ => None) None (fun _ => true) None None
             None None URL (fun url => inl url) (fun _ => None)
             (examples.defaultFlags []));
      [reflexivity | simpl; lia].
  - apply (main_wants_one_source (fun _ => None) None (fun _ => true) None None
             None None URL (fun url => inl url) (fun _ => None)
             (examples.defaultFlags
                [examples.otherSource; examples.kubernetesSource; examples.summarySource]));
      [reflexivity | simpl; lia].
Defined.

(** With exactly one kubernetes source the same start-up goes through. *)
Example one_source_serves :
  examples.mainAllOk (examples.defaultFlags [examples.summarySource]) = ServePlain.
Proof. reflexivity. Qed.

(** [SplitN(s, ".", 2)] is never empty, and its first element is [s] cut at
    the first dot. *)
Lemma cut_before (c : ascii) (s : string) :
  match strings.cut c s with
  | Some (b, _) => b = strings.before c s
  | None => s = strings.before c s
  end.
Proof.
  induction s as [|a s IH]; simpl; [reflexivity|].
  destruct (decide (a = c)); [reflexivity|].
  destruct (strings.cut c s) as [[b r]|]; by f_equal.
Qed.

Lemma splitHead_before (key : string) :
  splitHead key = Ret (strings.before "." key).
Proof.
  unfold splitHead. simpl.
  pose proof (cut_before "." key) as H.
  destruct (strings.cut "." key) as [[b r]|]; congruence.
Qed.

(** C9. [getKubernetesAddress] returns the URL of the first URI of the list
    whose scheme, cut at its first dot, is "kubernetes"; it returns the error
    "No kubernetes source found." exactly when the list has no such URI, and it
    does nothing else. Both [kubernetes] and [kubernetes.summary_api] are such
    schemes. *)
Theorem getKubernetesAddress_first_match (args : Uris) :
  (getKubernetesAddress args = Err "No kubernetes source found."
   <-> Forall (fun u => ~ isKubernetesSource u) args)
  /\ match getKubernetesAddress args with
     | Ret url =>
         exists l1 u l2,
           args = (l1 ++ u :: l2)%list
           /\ Forall (fun v => ~ isKubernetesSource v) l1
           /\ isKubernetesSource u
           /\ url = Val u
     | Err e => e = "No kubernetes source found."
     | Panic _ => False
     end
  /\ isKubernetesSource examples.kubernetesSource
  /\ isKubernetesSource examples.summarySource.
Proof.
  split; [|split; [|split; reflexivity]].
  - induction args as [|u rest IH]; simpl.
    + split; [constructor | reflexivity].
    + rewrite splitHead_before.
      destruct (decide (strings.before "." (Key u) = "kubernetes")) as [Hk|Hk].
      * split; [discriminate|]. intros H. inversion H; subst. contradiction.
      * rewrite IH. split.
        -- intros H. by constructor.
        -- intros H. by inversion H.
  - induction args as [|u rest IH]; simpl; [reflexivity|].
    rewrite splitHead_before.
    destruct (decide (strings.before "." (Key u) = "kubernetes")) as [Hk|Hk].
    + exists [], u, rest. repeat split; [constructor | exact Hk].
    + destruct (getKubernetesAddress rest) as [url|e|msg]; [|exact IH..].
      destruct IH as (l1 & v & l2 & -> & Hl1 & Hv & ->).
      exists (u :: l1), v, l2. repeat split; [by constructor | exact Hv].
Qed.

(** The URL of the first kubernetes source, past a source of another kind. *)
Example getKubernetesAddress_skips :
  getKubernetesAddress
    [examples.otherSource; examples.summarySource; examples.kubernetesSource]
  = Ret examples.summaryUrl.
Proof. reflexivity. Qed.

(** ** The health check *)

Lemma Sub_exceeds (t u d : Z) :
  minDuration <= d < maxDuration -> (d <? Sub t u) = (d <? t - u).
Proof.
  intros Hd. unfold Sub.
  destruct (Z.ltb_spec maxDuration (t - u));
    [|destruct (Z.ltb_spec (t - u) minDuration)];
    destruct (Z.ltb_spec d (t - u)); try reflexivity;
    first [apply Z.ltb_lt; lia | apply Z.ltb_ge; lia | exfalso; lia].
Qed.

Lemma maxMetricsDelay_fits : minDuration <= app.maxMetricsDelay < maxDuration.
Proof. vm_compute. split; [discriminate | reflexivity]. Qed.

(** C1, as the claim states it, fails on the boundary: a batch that is
    exactly three minutes old (so not less than three minutes old) with one
    set still passes the check. *)
Lemma healthz_passes_at_three_minutes :
  app.healthzChecker examples.decimalTime (1000 + 3 * Minute)
    (Some (examples.batchAt 1000)) = None
  /\ app.healthzStatus examples.decimalTime (1000 + 3 * Minute)
       (Some (examples.batchAt 1000)) = 200
  /\ ~ ((1000 + 3 * Minute) - Timestamp (examples.batchAt 1000) < 3 * Minute)
  /\ size (MetricSets (examples.batchAt 1000)) = 1%nat.
Proof.
  split; [vm_compute; reflexivity|].
  split; [vm_compute; reflexivity|].
  split; [vm_compute; discriminate | vm_compute; reflexivity].
Qed.

(** C1, amended. The check succeeds (status 200) exactly when there is a
    latest batch, it is at most three minutes old and it holds at least one
    set; in every other case it fails (status 500), and for a batch older than
    three minutes the error reads
    "No current data batch available (latest: <timestamp>).". *)
Theorem healthz_ok_iff (Time_String : Time -> string) (now : Time)
  (latest : option DataBatch) :
  (app.healthzStatus Time_String now latest = 200
   <-> exists batch,
         latest = Some batch
         /\ now - Timestamp batch <= 3 * Minute
         /\ (1 <= size (MetricSets batch))%nat)
  /\ (app.healthzStatus Time_String now latest = 200
      \/ app.healthzStatus Time_String now latest = 500)
  /\ (app.healthzStatus Time_String now latest = 200
      <-> app.healthzChecker Time_String now latest = None)
  /\ match latest with
     | Some batch =>
         if 3 * Minute <? now - Timestamp batch then
           app.healthzChecker Time_String now latest
           = Some ("No current data batch available (latest: "
                     +:+ Time_String (Timestamp batch) +:+ ").")
         else True
     | None => True
     end.
Proof.
  unfold app.healthzStatus, app.healthzChecker.
  destruct latest as [batch|].
  2: { repeat split; try (intros; discriminate); auto.
       intros (b & Hb & _); discriminate. }
  rewrite (Sub_exceeds _ _ _ maxMetricsDelay_fits).
  change app.maxMetricsDelay with (3 * Minute).
  destruct (Z.ltb_spec (3 * Minute) (now - Timestamp batch)) as [Hold|Hfresh].
  { repeat split; try (intros; discriminate); auto.
    intros (b & [= <-] & Hage & _). lia. }
  unfold app.minMetricsCount.
  destruct (Z.ltb_spec (Z.of_nat (size (MetricSets batch))) 1) as [Hfew|Hmany].
  { repeat split; try (intros; discriminate); auto.
    intros (b & [= <-] & _ & Hsz). lia. }
  repeat split; auto.
  intros _. exists batch. repeat split; [exact Hfresh | lia].
Qed.

(** The three failures of the check, after four minutes without a batch,
    with an empty batch, and without any batch. *)
Example healthz_stale :
  app.healthzChecker examples.decimalTime (1000 + 4 * Minute)
    (Some (examples.batchAt 1000))
  = Some "No current data batch available (latest: 1000).".
Proof. vm_compute. reflexivity. Qed.

Example healthz_empty :
  app.healthzChecker examples.decimalTime 2000
    (Some {| Timestamp := 1000; MetricSets := ∅ |})
  = Some "Not enough metrics found in the latest data batch: 0 (expected min. 1) 1000".
Proof. vm_compute. reflexivity. Qed.

Example healthz_no_batch :
  app.healthzChecker examples.decimalTime 2000 None
  = Some "could not get the latest data batch".
Proof. reflexivity. Qed.

(** ** The Elasticsearch events sink *)

Section SinkFacts.
Import elasticsearch.

Variable json_MarshalIndent : option Event -> res string.
Variable World : Type.
Variable saveData : Time -> list EsSinkPoint -> World -> option error * World.
Variable flushData : World -> option error * World.

(** The loop runs to its end exactly when every event converts. *)
Lemma exportLoop_returns_iff (events : list (option Event)) (st : sinkState World) :
  (exists st', exportLoop json_MarshalIndent World saveData events st
               = Returned World st')
  <-> Forall (fun ev => exists p, eventToPoint json_MarshalIndent ev = Ret p) events.
Proof.
  revert st. induction events as [|ev events IH]; intros st; simpl.
  - split; [constructor | eauto].
  - destruct (eventToPoint json_MarshalIndent ev) as [p|e|msg] eqn:Hev.
    + destruct (saveData _ _ _) as [err w]. rewrite IH. split.
      * intros H. constructor; eauto.
      * intros H. by inversion H.
    + split; [intros [st' H]; discriminate|].
      intros H. inversion H as [|? ? [p Hp]]; subst. congruence.
    + split; [intros [st' H]; discriminate|].
      intros H. inversion H as [|? ? [p Hp]]; subst. congruence.
Qed.




End SinkFacts.



(** A batch of one event is exported: its point is saved. *)
Example ExportEvents_exports :
  exists point,
    elasticsearch.ExportEvents examples.constantMarshal (list elasticsearch.EsSinkPoint)
      examples.recordingSave examples.recordingFlush
      {| elasticsearch.BatchTimestamp := 2000;
         elasticsearch.Events := [Some examples.podEvent] |}
      examples.freshSink
    = elasticsearch.Returned (list elasticsearch.EsSinkPoint)
        {| elasticsearch.locked := false;
           elasticsearch.warnings := [];
           elasticsearch.world := [point] |}
    /\ elasticsearch.EventTimestamp point = 1000
    /\ elasticsearch.EventTags point !! "pod_name" = Some "pod0"
    /\ elasticsearch.EventTags point !! "hostname" = Some "test-hostname".
Proof. eexists. repeat split; vm_compute; reflexivity. Qed.

(** ** The summary decoder *)

Import summary decoded.

(** *** Keys *)

Lemma append_nonempty_right (a b : string) : a = a +:+ b -> b = "".
Proof.
  induction a as [|c a IH]; intros H.
  - symmetry. exact H.
  - change (String c a = String c (a +:+ b)) in H.
    injection H as H. auto.
Qed.

Lemma NodeKey_not_container (n c : string) : NodeKey n <> NodeContainerKey n c.
Proof.
  unfold NodeKey, NodeContainerKey. intros H.
  apply (inj (String.app "node:")) in H.
  apply append_nonempty_right in H. discriminate H.
Qed.

Lemma NodeContainerKey_inj (n c1 c2 : string) :
  NodeContainerKey n c1 = NodeContainerKey n c2 -> c1 = c2.
Proof.
  unfold NodeContainerKey. intros H.
  by repeat apply (inj (String.app _)) in H.
Qed.


Lemma containerKey_inj (pod : PodStats) (c1 c2 : ContainerStats) :
  containerKey pod c1 = containerKey pod c2 -> ContainerName c1 = ContainerName c2.
Proof.
  unfold containerKey, PodContainerKey. intros H.
  by repeat apply (inj (String.app _)) in H.
Qed.

Lemma node_key_not_namespace_key (a b : string) :
  "node:" +:+ a <> "namespace:" +:+ b.
Proof. intros H. vm_compute in H. discriminate H. Qed.

Lemma podKeys_not_node (pod : PodStats) (a : string) :
  "node:" +:+ a ∉ podKeys pod.
Proof.
  unfold podKeys. rewrite elem_of_cons, list_elem_of_fmap.
  intros [H|(c & H & _)]; by apply node_key_not_namespace_key in H.
Qed.

(** *** The fields that decoding leaves alone *)

Ltac decode_cases :=
  repeat match goal with
    | |- context [match ?x with Some _ => _ | None => _ end] => destruct x
    end.

Lemma Labels_decodeFsStats (m : MetricSet) (k : string) (fs : option FsStats) :
  Labels (decodeFsStats m k fs) = Labels m.
Proof. unfold decodeFsStats, addLabeledIntMetric. decode_cases; reflexivity. Qed.

Lemma MetricValues_decodeFsStats (m : MetricSet) (k : string) (fs : option FsStats) :
  MetricValues (decodeFsStats m k fs) = MetricValues m.
Proof. unfold decodeFsStats, addLabeledIntMetric. decode_cases; reflexivity. Qed.

Lemma LabeledMetrics_decodeFsStats (m : MetricSet) (k : string) (fs : option FsStats) :
  LabeledMetrics (decodeFsStats m k fs)
  = (LabeledMetrics m ++ fsLabeledMetrics k fs)%list.
Proof.
  unfold decodeFsStats, addLabeledIntMetric, fsLabeledMetrics, fsSample.
  decode_cases; simpl; rewrite <- ?app_assoc, ?app_nil_r; reflexivity.
Qed.

Lemma Labels_decodeNetworkStats (m : MetricSet) (n : option NetworkStats) :
  Labels (decodeNetworkStats m n) = Labels m.
Proof. unfold decodeNetworkStats, addIntMetric. decode_cases; reflexivity. Qed.

Lemma LabeledMetrics_decodeNetworkStats (m : MetricSet) (n : option NetworkStats) :
  LabeledMetrics (decodeNetworkStats m n) = LabeledMetrics m.
Proof. unfold decodeNetworkStats, addIntMetric. decode_cases; reflexivity. Qed.

Lemma Labels_decodeMemoryStats (m : MetricSet) (x : option MemoryStats) :
  Labels (decodeMemoryStats m x) = Labels m.
Proof. unfold decodeMemoryStats, addIntMetric. decode_cases; reflexivity. Qed.

Lemma LabeledMetrics_decodeMemoryStats (m : MetricSet) (x : option MemoryStats) :
  LabeledMetrics (decodeMemoryStats m x) = LabeledMetrics m.
Proof. unfold decodeMemoryStats, addIntMetric. decode_cases; reflexivity. Qed.

Lemma Labels_decodeCPUStats (m : MetricSet) (x : option CPUStats) :
  Labels (decodeCPUStats m x) = Labels m.
Proof. unfold decodeCPUStats, addIntMetric. decode_cases; reflexivity. Qed.

Lemma LabeledMetrics_decodeCPUStats (m : MetricSet) (x : option CPUStats) :
  LabeledMetrics (decodeCPUStats m x) = LabeledMetrics m.
Proof. unfold decodeCPUStats, addIntMetric. decode_cases; reflexivity. Qed.

(** The volumes of a pod are decoded one after the other. *)
Lemma volumes_fold (vols : list VolumeStats) (m m' : MetricSet) :
  m' = foldl (fun acc vol =>
                decodeFsStats acc (VolumeResourcePrefix +:+ VolumeName vol)
                  (Some (VolumeFsStats vol))) m vols ->
  Labels m' = Labels m
  /\ MetricValues m' = MetricValues m
  /\ LabeledMetrics m'
     = (LabeledMetrics m ++ flat_map volumeLabeledMetrics vols)%list.
Proof.
  revert m m'. induction vols as [|vol vols IH]; intros m m' ->.
  - simpl. by rewrite app_nil_r.
  - destruct (IH (decodeFsStats m (VolumeResourcePrefix +:+ VolumeName vol)
                    (Some (VolumeFsStats vol))) _ eq_refl) as (HL & HV & HM).
    cbn [foldl flat_map].
    rewrite HL, HV, HM, Labels_decodeFsStats, MetricValues_decodeFsStats,
      LabeledMetrics_decodeFsStats, <- app_assoc.
    done.
Qed.

Lemma Labels_podMetricSet (l : gmap string string) (pod : PodStats) :
  Labels (podMetricSet l pod)
  = <[ LabelNamespaceName := PodNamespace (PodRef pod) ]>
      (<[ LabelPodName := PodName (PodRef pod) ]>
         (<[ LabelMetricSetType := MetricSetTypePod ]> l)).
Proof.
  destruct (volumes_fold (PodVolumeStats pod) _ (podMetricSet l pod) eq_refl)
    as (HL & _ & _).
  by rewrite HL, Labels_decodeNetworkStats.
Qed.

Lemma LabeledMetrics_podMetricSet (l : gmap string string) (pod : PodStats) :
  LabeledMetrics (podMetricSet l pod)
  = flat_map volumeLabeledMetrics (PodVolumeStats pod).
Proof.
  destruct (volumes_fold (PodVolumeStats pod) _ (podMetricSet l pod) eq_refl)
    as (_ & _ & HM).
  by rewrite HM, LabeledMetrics_decodeNetworkStats.
Qed.

Lemma CreateTime_decodeFsStats (m : MetricSet) (k : string) (fs : option FsStats) :
  CreateTime (decodeFsStats m k fs) = CreateTime m.
Proof. unfold decodeFsStats, addLabeledIntMetric. decode_cases; reflexivity. Qed.

Lemma CreateTime_decodeMemoryStats (m : MetricSet) (x : option MemoryStats) :
  CreateTime (decodeMemoryStats m x) = CreateTime m.
Proof. unfold decodeMemoryStats, addIntMetric. decode_cases; reflexivity. Qed.

Lemma CreateTime_decodeCPUStats (m : MetricSet) (x : option CPUStats) :
  CreateTime (decodeCPUStats m x) = CreateTime m.
Proof. unfold decodeCPUStats, addIntMetric. decode_cases; reflexivity. Qed.

Lemma CreateTime_decodeContainerStats (l : gmap string string)
  (c : ContainerStats) (b : bool) :
  CreateTime (decodeContainerStats l c b) = ContainerStartTime c.
Proof.
  unfold decodeContainerStats.
  by rewrite !CreateTime_decodeFsStats, CreateTime_decodeMemoryStats,
    CreateTime_decodeCPUStats.
Qed.

Lemma Labels_decodeContainerStats (l : gmap string string)
  (c : ContainerStats) (b : bool) :
  Labels (decodeContainerStats l c b)
  = <[ LabelContainerName :=
         if b then getSystemContainerName c else ContainerName c ]>
      (<[ LabelMetricSetType :=
            if b then MetricSetTypeSystemContainer else MetricSetTypePodContainer ]> l).
Proof.
  unfold decodeContainerStats.
  by rewrite !Labels_decodeFsStats, Labels_decodeMemoryStats, Labels_decodeCPUStats.
Qed.

Lemma Labels_nodeMetricSet (l : gmap string string) (n : NodeStats) :
  Labels (nodeMetricSet l n) = <[ LabelMetricSetType := MetricSetTypeNode ]> l.
Proof.
  unfold nodeMetricSet.
  by rewrite Labels_decodeFsStats, Labels_decodeNetworkStats,
    Labels_decodeMemoryStats, Labels_decodeCPUStats.
Qed.

Lemma originSet_type (this : summaryMetricsSource) (s : Summary) (o : origin) :
  Labels (originSet this s o) !! LabelMetricSetType = Some (originType o).
Proof.
  destruct o as [|c|pod|pod c]; simpl.
  - rewrite Labels_nodeMetricSet. apply lookup_insert_eq.
  - rewrite Labels_decodeContainerStats, lookup_insert_ne by done.
    apply lookup_insert_eq.
  - rewrite Labels_podMetricSet, !lookup_insert_ne by done.
    apply lookup_insert_eq.
  - rewrite Labels_decodeContainerStats, lookup_insert_ne by done.
    apply lookup_insert_eq.
Qed.

(** *** The batch, key by key *)

Lemma foldl_preserves {A B : Type} (P : A -> Prop) (f : A -> B -> A)
  (l : list B) (a : A) :
  P a -> (forall a x, x ∈ l -> P a -> P (f a x)) -> P (foldl f a l).
Proof.
  revert a. induction l as [|x l IH]; intros a Ha Hstep; simpl; [exact Ha|].
  apply IH.
  - apply Hstep; [left | exact Ha].
  - intros a' y Hy. apply Hstep. by right.
Qed.

Lemma lookup_decodePodContainer (pod : PodStats) (labels : gmap string string)
  (m : gmap string MetricSet) (c : ContainerStats) (k : string) :
  decodePodContainer pod labels m c !! k = cellStep pod labels k (m !! k) c.
Proof.
  unfold decodePodContainer, cellStep. fold (containerKey pod c).
  destruct (decide (k = containerKey pod c)) as [->|Hk].
  - destruct (m !! containerKey pod c) as [existing|] eqn:Hm.
    + destruct (Before _ _); [exact Hm | apply lookup_insert_eq].
    + apply lookup_insert_eq.
  - destruct (m !! containerKey pod c) as [existing|].
    + destruct (Before _ _); [reflexivity | by apply lookup_insert_ne].
    + by apply lookup_insert_ne.
Qed.

Lemma lookup_containers (pod : PodStats) (labels : gmap string string)
  (cs : list ContainerStats) (m : gmap string MetricSet) (k : string) :
  foldl (decodePodContainer pod labels) m cs !! k
  = foldl (cellStep pod labels k) (m !! k) cs.
Proof.
  revert m. induction cs as [|c cs IH]; intros m; simpl; [reflexivity|].
  by rewrite IH, lookup_decodePodContainer.
Qed.

Lemma lookup_decodePodStats (m : gmap string MetricSet) (l : gmap string string)
  (pod : PodStats) (k : string) :
  decodePodStats m l pod !! k
  = foldl (cellStep pod (Labels (podMetricSet l pod)) k)
      (if decide (k = podKey pod) then Some (podMetricSet l pod) else m !! k)
      (Containers pod).
Proof.
  unfold decodePodStats. fold (podKey pod). rewrite lookup_containers.
  f_equal. destruct (decide (k = podKey pod)) as [->|Hk].
  - apply lookup_insert_eq.
  - by apply lookup_insert_ne.
Qed.




(** The node part of the batch, key by key. *)
Lemma lookup_decodeNodeStats (l : gmap string string) (n : NodeStats) (k : string) :
  decodeNodeStats ∅ l n !! k
  = foldl (fun cur c =>
             if decide (k = NodeContainerKey (NodeName n) (getSystemContainerName c))
             then Some (decodeContainerStats l c true) else cur)
      (if decide (k = NodeKey (NodeName n)) then Some (nodeMetricSet l n) else None)
      (SystemContainers n).
Proof.
  unfold decodeNodeStats.
  assert (<[NodeKey (NodeName n) := nodeMetricSet l n]> (∅ : gmap string MetricSet) !! k
          = if decide (k = NodeKey (NodeName n)) then Some (nodeMetricSet l n) else None)
    as H0.
  { destruct (decide (k = NodeKey (NodeName n))) as [->|Hk].
    - apply lookup_insert_eq.
    - by rewrite lookup_insert_ne, lookup_empty. }
  revert H0.
  generalize (<[NodeKey (NodeName n) := nodeMetricSet l n]> (∅ : gmap string MetricSet)).
  generalize (if decide (k = NodeKey (NodeName n))
              then Some (nodeMetricSet l n) else None).
  induction (SystemContainers n) as [|c cs IH]; intros cur m Hm; simpl; [exact Hm|].
  apply IH.
  destruct (decide (k = NodeContainerKey (NodeName n) (getSystemContainerName c)))
    as [->|Hk].
  - apply lookup_insert_eq.
  - by rewrite lookup_insert_ne.
Qed.

(** Every set of the batch is the set of some part of the document, stored
    under the key of that part. *)
Lemma decodeSummary_origin (this : summaryMetricsSource) (s : Summary)
  (k : string) (m : MetricSet) :
  decodeSummary this s !! k = Some m ->
  exists o, originIn s o /\ k = originKey s o /\ m = originSet this s o.
Proof.
  revert k m. unfold decodeSummary.
  apply (foldl_preserves
           (fun metrics : gmap string MetricSet => forall k m, metrics !! k = Some m ->
              exists o, originIn s o /\ k = originKey s o /\ m = originSet this s o)).
  - unfold decodeNodeStats. apply foldl_preserves.
    + intros k m Hm. destruct (decide (k = NodeKey (NodeName (Node s)))) as [->|Hk].
      * rewrite lookup_insert_eq in Hm. injection Hm as <-.
        by exists FromNode.
      * by rewrite lookup_insert_ne, lookup_empty in Hm.
    + intros metrics c Hc IH k m Hm.
      destruct (decide (k = NodeContainerKey (NodeName (Node s))
                             (getSystemContainerName c))) as [->|Hk].
      * rewrite lookup_insert_eq in Hm. injection Hm as <-.
        by exists (FromSystemContainer c).
      * rewrite lookup_insert_ne in Hm by done. by apply IH.
  - intros metrics pod Hpod IH. unfold decodePodStats. apply foldl_preserves.
    + intros k m Hm. fold (podKey pod) in Hm.
      destruct (decide (k = podKey pod)) as [->|Hk].
      * rewrite lookup_insert_eq in Hm. injection Hm as <-.
        by exists (FromPod pod).
      * rewrite lookup_insert_ne in Hm by done. by apply IH.
    + intros metrics' c Hc IH' k m Hm.
      rewrite lookup_decodePodContainer in Hm. unfold cellStep in Hm.
      destruct (decide (k = containerKey pod c)) as [->|Hk]; [|by apply IH'].
      assert (m = decodeContainerStats (podLabels this pod) c false
              \/ metrics' !! containerKey pod c = Some m) as [->|Hold].
      { unfold podLabels.
        destruct (metrics' !! containerKey pod c) as [existing|].
        - destruct (Before _ _); [by right | left; congruence].
        - left; congruence. }
      * by exists (FromPodContainer pod c).
      * by apply IH'.
Qed.

(** *** Reading the type off a key *)

Lemma segments_slashFree (a : string) : slashFree a = true -> segments a = [a].
Proof.
  induction a as [|c a IH]; simpl; [reflexivity|].
  rewrite andb_true_iff, negb_true_iff, bool_decide_eq_false.
  intros [Hc Ha]. rewrite (IH Ha). by destruct (decide (c = "/"%char)).
Qed.

Lemma segments_slash (a b : string) :
  slashFree a = true -> segments (a +:+ String "/" b) = a :: segments b.
Proof.
  induction a as [|c a IH]; intros Ha.
  - reflexivity.
  - simpl in Ha. rewrite andb_true_iff, negb_true_iff, bool_decide_eq_false in Ha.
    destruct Ha as [Hc Ha].
    change (String c a +:+ String "/" b) with (String c (a +:+ String "/" b)).
    simpl. rewrite (IH Ha). by destruct (decide (c = "/"%char)).
Qed.

Lemma slashFree_app (a b : string) :
  slashFree (a +:+ b) = slashFree a && slashFree b.
Proof.
  induction a as [|c a IH]; [reflexivity|].
  change (String c a +:+ b) with (String c (a +:+ b)).
  simpl. by rewrite IH, andb_assoc.
Qed.

Lemma prefix_app (p s : string) : String.prefix p (p +:+ s) = true.
Proof.
  induction p as [|c p IH]; [by destruct s|].
  change (String c p +:+ s) with (String c (p +:+ s)).
  simpl. by destruct (ascii_dec c c).
Qed.

Lemma slashFree_getSystemContainerName (c : ContainerStats) :
  slashFree (ContainerName c) = true -> slashFree (getSystemContainerName c) = true.
Proof.
  unfold getSystemContainerName. intros H.
  repeat case_decide; done.
Qed.

Lemma keyType_NodeKey (n : string) :
  slashFree n = true -> keyType (NodeKey n) = Some MetricSetTypeNode.
Proof.
  intros Hn. unfold keyType, NodeKey.
  rewrite segments_slashFree by (by rewrite slashFree_app, Hn).
  by rewrite prefix_app.
Qed.

Lemma segments_tagged (tag a b : string) :
  slashFree tag = true -> slashFree a = true ->
  segments (tag +:+ a +:+ String "/" b) = (tag +:+ a) :: segments b.
Proof.
  intros Htag Ha. induction tag as [|c tag IH].
  - by apply segments_slash.
  - simpl in Htag. rewrite andb_true_iff, negb_true_iff, bool_decide_eq_false in Htag.
    destruct Htag as [Hc Htag].
    change (String c tag +:+ a +:+ String "/" b)
      with (String c (tag +:+ a +:+ String "/" b)).
    simpl. rewrite (IH Htag). by destruct (decide (c = "/"%char)).
Qed.

Lemma segments_last (tag a : string) :
  slashFree tag = true -> slashFree a = true -> segments (tag +:+ a) = [tag +:+ a].
Proof.
  intros Htag Ha. apply segments_slashFree. by rewrite slashFree_app, Htag, Ha.
Qed.

Lemma keyType_NodeContainerKey (n c : string) :
  slashFree n = true -> slashFree c = true ->
  keyType (NodeContainerKey n c) = Some MetricSetTypeSystemContainer.
Proof.
  intros Hn Hc. unfold keyType, NodeContainerKey.
  change ("/container:" +:+ c) with (String "/" ("container:" +:+ c)).
  rewrite segments_tagged, segments_last by done.
  by rewrite !prefix_app.
Qed.

Lemma keyType_PodKey (ns pod : string) :
  slashFree ns = true -> slashFree pod = true ->
  keyType (PodKey ns pod) = Some MetricSetTypePod.
Proof.
  intros Hns Hpod. unfold keyType, PodKey.
  change ("/pod:" +:+ pod) with (String "/" ("pod:" +:+ pod)).
  rewrite segments_tagged, segments_last by done.
  by rewrite !prefix_app.
Qed.

Lemma keyType_PodContainerKey (ns pod c : string) :
  slashFree ns = true -> slashFree pod = true -> slashFree c = true ->
  keyType (PodContainerKey ns pod c) = Some MetricSetTypePodContainer.
Proof.
  intros Hns Hpod Hc. unfold keyType, PodContainerKey.
  change ("/pod:" +:+ pod +:+ "/container:" +:+ c)
    with (String "/" ("pod:" +:+ pod +:+ String "/" ("container:" +:+ c))).
  rewrite !segments_tagged, segments_last by done.
  by rewrite !prefix_app.
Qed.

Lemma slashFreeContainers_elem (cs : list ContainerStats) (c : ContainerStats) :
  slashFreeContainers cs = true -> c ∈ cs -> slashFree (ContainerName c) = true.
Proof.
  unfold slashFreeContainers. rewrite forallb_forall. intros H Hc.
  apply (H c). by apply list_elem_of_In.
Qed.

(** With slash-free names, the grammar of the key of a part of the document
    names the type of that part. *)
Lemma keyType_originKey (s : Summary) (o : origin) :
  slashFreeNames s = true -> originIn s o ->
  keyType (originKey s o) = Some (originType o).
Proof.
  unfold slashFreeNames. rewrite !andb_true_iff, forallb_forall.
  intros [[Hn Hsys] Hpods] Ho.
  assert (forall pod, pod ∈ Pods s ->
            slashFree (PodNamespace (PodRef pod)) = true
            /\ slashFree (PodName (PodRef pod)) = true
            /\ slashFreeContainers (Containers pod) = true) as Hpod.
  { intros pod Hpod. apply list_elem_of_In, Hpods in Hpod.
    rewrite !andb_true_iff in Hpod. tauto. }
  destruct o as [|c|pod|pod c]; simpl in *.
  - by apply keyType_NodeKey.
  - apply keyType_NodeContainerKey; [exact Hn|].
    apply slashFree_getSystemContainerName. by eapply slashFreeContainers_elem.
  - destruct (Hpod pod Ho) as (? & ? & ?). by apply keyType_PodKey.
  - destruct Ho as [Ho Hc]. destruct (Hpod pod Ho) as (? & ? & ?).
    apply keyType_PodContainerKey; [done..|]. by eapply slashFreeContainers_elem.
Qed.

(** C8. Every set of a decoded batch sits under a key built for a part of the
    document, and its [type] label is the one of that key's grammar:
    [node] under [node:<n>], [sys_container] under [node:<n>/container:<c>],
    [pod] under [namespace:<ns>/pod:<p>] and [pod_container] under
    [namespace:<ns>/pod:<p>/container:<c>]. When the names of the document
    hold no slash, the type read off the key alone is the label. *)
Theorem decodeSummary_type_agrees_with_key (this : summaryMetricsSource)
  (s : Summary) (k : string) (m : MetricSet) :
  decodeSummary this s !! k = Some m ->
  ((k = NodeKey (NodeName (Node s))
    /\ Labels m !! LabelMetricSetType = Some MetricSetTypeNode)
   \/ (exists c,
         c ∈ SystemContainers (Node s)
         /\ k = NodeContainerKey (NodeName (Node s)) (getSystemContainerName c)
         /\ Labels m !! LabelMetricSetType = Some MetricSetTypeSystemContainer)
   \/ (exists pod,
         pod ∈ Pods s
         /\ k = PodKey (PodNamespace (PodRef pod)) (PodName (PodRef pod))
         /\ Labels m !! LabelMetricSetType = Some MetricSetTypePod)
   \/ (exists pod c,
         pod ∈ Pods s /\ c ∈ Containers pod
         /\ k = PodContainerKey (PodNamespace (PodRef pod)) (PodName (PodRef pod))
                  (ContainerName c)
         /\ Labels m !! LabelMetricSetType = Some MetricSetTypePodContainer))
  /\ (if slashFreeNames s then keyType k = Labels m !! LabelMetricSetType else True).
Proof.
  intros Hm. destruct (decodeSummary_origin this s k m Hm) as (o & Ho & -> & ->).
  split.
  - pose proof (originSet_type this s o) as Ht.
    destruct o as [|c|pod|pod c]; simpl in Ho, Ht |- *.
    + left. done.
    + right; left. by exists c.
    + right; right; left. by exists pod.
    + right; right; right. destruct Ho. by exists pod, c.
  - destruct (slashFreeNames s) eqn:Hs; [|done].
    by rewrite originSet_type, keyType_originKey.
Qed.

(** The theorem on the document of [TestDecodeSummaryMetrics], at the key of
    the runtime system container. *)
Lemma decodeSummary_type_agrees_with_key_witness :
  keyType "node:test/container:docker-daemon" = Some "sys_container"
  /\ Labels (decodeContainerStats (nodeLabels summary_test.testingSummaryMetricsSource)
               (summary_test.genTestSummaryContainer "runtime" summary_test.seedRuntime)
               true) !! "type" = Some "sys_container".
Proof.
  destruct (decodeSummary_type_agrees_with_key
              summary_test.testingSummaryMetricsSource summary_test.decodeTestSummary
              "node:test/container:docker-daemon"
              (decodeContainerStats (nodeLabels summary_test.testingSummaryMetricsSource)
                 (summary_test.genTestSummaryContainer "runtime" summary_test.seedRuntime)
                 true)) as [_ H].
  - vm_compute. reflexivity.
  - change (slashFreeNames summary_test.decodeTestSummary) with true in H.
    split; [reflexivity|].
    transitivity (keyType "node:test/container:docker-daemon");
      [symmetry; exact H | reflexivity].
Defined.

(** *** Metric values and the pointers behind them *)

Lemma MetricValues_addIntMetric (m : MetricSet) (metric : Metric)
  (v : option Z) (name : string) :
  MetricValues (addIntMetric m metric v) !! name
  = match (if decide (name = Name metric) then intValue <$> v else None) with
    | Some x => Some x
    | None => MetricValues m !! name
    end.
Proof.
  unfold addIntMetric. destruct v as [u|]; simpl.
  - destruct (decide (name = Name metric)) as [->|Hn].
    + apply lookup_insert_eq.
    + by apply lookup_insert_ne.
  - by destruct (decide (name = Name metric)).
Qed.

Ltac field_cases :=
  repeat match goal with
    | |- context [match ?x with Some _ => _ | None => _ end] => destruct x
    end.

Ltac name_cases name :=
  repeat match goal with
    | |- context [decide (name = ?b)] =>
        destruct (decide (name = b)) as [->|?];
        [simpl; field_cases; reflexivity|]
    end.

Lemma MetricValues_cpu_memory_network (m0 : MetricSet) (cpu : option CPUStats)
  (mem : option MemoryStats) (net : option NetworkStats) (name : string) :
  MetricValues m0 = ∅ ->
  MetricValues (decodeNetworkStats (decodeMemoryStats (decodeCPUStats m0 cpu) mem) net)
    !! name
  = intValue <$>
      (if decide (name = Name MetricCpuUsage) then cpu ≫= UsageCoreNanoSeconds
       else if decide (name = Name MetricMemoryUsage) then mem ≫= UsageBytes
       else if decide (name = Name MetricMemoryWorkingSet) then mem ≫= WorkingSetBytes
       else if decide (name = Name MetricMemoryRSS) then mem ≫= RSSBytes
       else if decide (name = Name MetricMemoryPageFaults) then mem ≫= PageFaults
       else if decide (name = Name MetricMemoryMajorPageFaults) then mem ≫= MajorPageFaults
       else if decide (name = Name MetricNetworkRx) then net ≫= RxBytes
       else if decide (name = Name MetricNetworkRxErrors) then net ≫= RxErrors
       else if decide (name = Name MetricNetworkTx) then net ≫= TxBytes
       else if decide (name = Name MetricNetworkTxErrors) then net ≫= TxErrors
       else None).
Proof.
  intros H0.
  unfold decodeNetworkStats, decodeMemoryStats, decodeCPUStats.
  destruct cpu as [cpu|], mem as [mem|], net as [net|];
    rewrite ?MetricValues_addIntMetric, H0, lookup_empty;
    cbn [Name MetricCpuUsage MetricMemoryUsage MetricMemoryWorkingSet
         MetricMemoryRSS MetricMemoryPageFaults MetricMemoryMajorPageFaults
         MetricNetworkRx MetricNetworkRxErrors MetricNetworkTx
         MetricNetworkTxErrors mbind option_bind];
    name_cases name; reflexivity.
Qed.

Lemma MetricValues_podMetricSet (l : gmap string string) (pod : PodStats) :
  MetricValues (podMetricSet l pod)
  = MetricValues
      (decodeNetworkStats
         {| CreateTime := PodStartTime pod;
            ScrapeTime := getScrapeTime None None (PodNetwork pod);
            Labels := Labels (podMetricSet l pod);
            MetricValues := ∅;
            LabeledMetrics := [] |} (PodNetwork pod)).
Proof.
  destruct (volumes_fold (PodVolumeStats pod) _ (podMetricSet l pod) eq_refl)
    as (_ & -> & _).
  unfold decodeNetworkStats, addIntMetric. decode_cases; reflexivity.
Qed.

(** The metric values of a set are the numbers the document holds for it. *)
Lemma MetricValues_originSet (this : summaryMetricsSource) (s : Summary)
  (o : origin) (name : string) :
  MetricValues (originSet this s o) !! name = intValue <$> statistic s o name.
Proof.
  destruct o as [|c|pod|pod c]; simpl.
  - unfold nodeMetricSet. rewrite MetricValues_decodeFsStats.
    by apply MetricValues_cpu_memory_network.
  - unfold decodeContainerStats. rewrite !MetricValues_decodeFsStats.
    by apply (MetricValues_cpu_memory_network _ (CPU c) (Memory c) None).
  - rewrite MetricValues_podMetricSet.
    by apply (MetricValues_cpu_memory_network _ None None (PodNetwork pod)).
  - unfold decodeContainerStats. rewrite !MetricValues_decodeFsStats.
    by apply (MetricValues_cpu_memory_network _ (CPU c) (Memory c) None).
Qed.

Lemma flat_map_volumes (vols : list VolumeStats) :
  flat_map volumeLabeledMetrics vols
  = flat_map (fun kf => fsLabeledMetrics kf.1 kf.2)
      ((fun vol => (VolumeResourcePrefix +:+ VolumeName vol, Some (VolumeFsStats vol)))
         <$> vols).
Proof. induction vols as [|vol vols IH]; simpl; [reflexivity | by rewrite IH]. Qed.

(** The labeled samples of a set are those of its filesystems, in order. *)
Lemma LabeledMetrics_originSet (this : summaryMetricsSource) (s : Summary)
  (o : origin) :
  LabeledMetrics (originSet this s o)
  = flat_map (fun kf => fsLabeledMetrics kf.1 kf.2) (originFs s o).
Proof.
  destruct o as [|c|pod|pod c]; simpl.
  - unfold nodeMetricSet.
    by rewrite LabeledMetrics_decodeFsStats, LabeledMetrics_decodeNetworkStats,
      LabeledMetrics_decodeMemoryStats, LabeledMetrics_decodeCPUStats, app_nil_r.
  - unfold decodeContainerStats.
    by rewrite !LabeledMetrics_decodeFsStats, LabeledMetrics_decodeMemoryStats,
      LabeledMetrics_decodeCPUStats, app_nil_r.
  - rewrite LabeledMetrics_podMetricSet. apply flat_map_volumes.
  - unfold decodeContainerStats.
    by rewrite !LabeledMetrics_decodeFsStats, LabeledMetrics_decodeMemoryStats,
      LabeledMetrics_decodeCPUStats, app_nil_r.
Qed.

(** *** Every part of the document has its set *)

Lemma foldl_establishes {A B : Type} (P : A -> Prop) (f : A -> B -> A)
  (l : list B) (x : B) (a : A) :
  x ∈ l -> (forall a, P (f a x)) -> (forall a y, P a -> P (f a y)) ->
  P (foldl f a l).
Proof.
  intros Hx Hest Hkeep. revert a.
  induction l as [|y l IH]; intros a; [by apply elem_of_nil in Hx|].
  apply elem_of_cons in Hx as [<-|Hx]; simpl.
  - apply foldl_preserves; [apply Hest | intros; by apply Hkeep].
  - by apply IH.
Qed.

Lemma cellStep_is_Some (pod : PodStats) (labels : gmap string string) (k : string)
  (cur : option MetricSet) (c : ContainerStats) :
  is_Some cur -> is_Some (cellStep pod labels k cur c).
Proof.
  intros [e ->]. unfold cellStep.
  destruct (decide _); [destruct (Before _ _)|]; eauto.
Qed.

Lemma cellStep_own_key (pod : PodStats) (labels : gmap string string)
  (cur : option MetricSet) (c : ContainerStats) :
  is_Some (cellStep pod labels (containerKey pod c) cur c).
Proof.
  unfold cellStep. rewrite decide_True by reflexivity.
  destruct cur; [destruct (Before _ _)|]; eauto.
Qed.

Lemma decodePodStats_keeps (m : gmap string MetricSet) (l : gmap string string)
  (pod : PodStats) (k : string) :
  is_Some (m !! k) -> is_Some (decodePodStats m l pod !! k).
Proof.
  intros Hk. rewrite lookup_decodePodStats. apply foldl_preserves.
  - by destruct (decide (k = podKey pod)); eauto.
  - intros cur c _. apply cellStep_is_Some.
Qed.

Lemma decodePodStats_own_keys (m : gmap string MetricSet) (l : gmap string string)
  (pod : PodStats) (k : string) :
  k ∈ podKeys pod -> is_Some (decodePodStats m l pod !! k).
Proof.
  unfold podKeys. rewrite elem_of_cons, list_elem_of_fmap.
  intros [->|(c & -> & Hc)]; rewrite lookup_decodePodStats.
  - apply foldl_preserves.
    + rewrite decide_True by reflexivity. eauto.
    + intros cur c _. apply cellStep_is_Some.
  - apply (foldl_establishes _ _ _ c); [exact Hc | ..].
    + intros cur. apply cellStep_own_key.
    + intros cur c'. apply cellStep_is_Some.
Qed.

Lemma decodeNodeStats_own_keys (l : gmap string string) (n : NodeStats) :
  is_Some (decodeNodeStats ∅ l n !! NodeKey (NodeName n))
  /\ forall c, c ∈ SystemContainers n ->
       is_Some (decodeNodeStats ∅ l n
                  !! NodeContainerKey (NodeName n) (getSystemContainerName c)).
Proof.
  split; [|intros c Hc]; rewrite lookup_decodeNodeStats.
  - apply foldl_preserves.
    + rewrite decide_True by reflexivity. eauto.
    + intros cur c _ Hcur. destruct (decide _); eauto.
  - apply (foldl_establishes _ _ _ c); [exact Hc | ..].
    + intros cur. rewrite decide_True by reflexivity. eauto.
    + intros cur c' Hcur. destruct (decide _); eauto.
Qed.

Lemma decodeSummary_has_key (this : summaryMetricsSource) (s : Summary) (o : origin) :
  originIn s o -> is_Some (decodeSummary this s !! originKey s o).
Proof.
  intros Ho. unfold decodeSummary.
  destruct (decodeNodeStats_own_keys (nodeLabels this) (Node s)) as [Hnode Hsys].
  destruct o as [|c|pod|pod c]; simpl in *.
  - apply foldl_preserves; [exact Hnode|]. intros m q _. apply decodePodStats_keeps.
  - apply foldl_preserves; [by apply Hsys|]. intros m q _. apply decodePodStats_keeps.
  - apply (foldl_establishes
             (fun m : gmap string MetricSet => is_Some (m !! podKey pod)) _ _ pod);
      [exact Ho | ..].
    + intros m. apply decodePodStats_own_keys. left.
    + intros m q. apply decodePodStats_keeps.
  - destruct Ho as [Hpod Hc].
    apply (foldl_establishes
             (fun m : gmap string MetricSet => is_Some (m !! containerKey pod c))
             _ _ pod); [exact Hpod | ..].
    + intros m. apply decodePodStats_own_keys. right.
      apply list_elem_of_fmap. eauto.
    + intros m q. apply decodePodStats_keeps.
Qed.

(** *** Null pointers *)

Lemma fsLabeledMetrics_resourceID (k : string) (fs : option FsStats) :
  Forall (fun lm => resourceID lm = Some k) (fsLabeledMetrics k fs).
Proof.
  unfold fsLabeledMetrics, fsSample, resourceID.
  destruct fs as [f|]; [|constructor].
  destruct (FsAvailableBytes f), (CapacityBytes f), (UsedBytes f); simpl;
    repeat constructor.
Qed.

Lemma statistic_no_cpu (s : Summary) (o : origin) :
  originCPU s o = None -> statistic s o (Name MetricCpuUsage) = None.
Proof. intros H. unfold statistic. rewrite H. reflexivity. Qed.

Lemma statistic_no_memory (s : Summary) (o : origin) :
  originMemory s o = None ->
  Forall (fun metric => statistic s o (Name metric) = None)
    [MetricMemoryUsage; MetricMemoryWorkingSet; MetricMemoryRSS;
     MetricMemoryPageFaults; MetricMemoryMajorPageFaults].
Proof. intros H. unfold statistic. rewrite H. repeat constructor. Qed.

Lemma statistic_no_network (s : Summary) (o : origin) :
  originNetwork s o = None ->
  Forall (fun metric => statistic s o (Name metric) = None)
    [MetricNetworkRx; MetricNetworkRxErrors; MetricNetworkTx; MetricNetworkTxErrors].
Proof. intros H. unfold statistic. rewrite H. repeat constructor. Qed.

Lemma no_fs_no_samples (s : Summary) (o : origin) (fsKey : string) :
  (fsKey, None) ∈ originFs s o ->
  Forall (fun lm => resourceID lm <> Some fsKey)
    (flat_map (fun kf => fsLabeledMetrics kf.1 kf.2) (originFs s o)).
Proof.
  assert (forall c : ContainerStats,
            (fsKey, None) ∈ [(RootFsKey, Rootfs c); (LogsKey, Logs c)] ->
            Forall (fun lm => resourceID lm <> Some fsKey)
              (flat_map (fun kf => fsLabeledMetrics kf.1 kf.2)
                 [(RootFsKey, Rootfs c); (LogsKey, Logs c)])) as Hcontainer.
  { intros c Hin. simpl. rewrite app_nil_r.
    apply elem_of_cons in Hin as [[= -> <-]|Hin].
    - simpl. eapply Forall_impl; [apply fsLabeledMetrics_resourceID|].
      intros lm ->. discriminate.
    - apply list_elem_of_singleton in Hin as [= -> <-].
      rewrite Forall_app. split; [|constructor].
      eapply Forall_impl; [apply fsLabeledMetrics_resourceID|].
      intros lm ->. discriminate. }
  destruct o as [|c|pod|pod c]; simpl; intros Hin; [| by apply Hcontainer | | by apply Hcontainer].
  - apply list_elem_of_singleton in Hin as [= -> <-]. constructor.
  - apply list_elem_of_fmap in Hin as (vol & [=] & _).
Qed.

(** C5. Every set of a decoded batch is the set of one part [o] of the
    document, and it holds exactly what the document holds for that part: a
    metric value is there if and only if the pointers leading to its number
    are all non-nil, and then it is that number. In particular, without CPU
    statistics there is no [cpu/usage], without memory (network) statistics
    none of the memory (network) metrics, a pod has no CPU or memory metric of
    its own, and a nil filesystem gives no labeled sample. *)
Theorem null_statistics_emit_nothing (this : summaryMetricsSource) (s : Summary)
  (k : string) (m : MetricSet) :
  decodeSummary this s !! k = Some m ->
  exists o,
    originIn s o /\ k = originKey s o
    /\ (forall name, MetricValues m !! name = intValue <$> statistic s o name)
    /\ LabeledMetrics m
       = flat_map (fun kf => fsLabeledMetrics kf.1 kf.2) (originFs s o)
    /\ (originCPU s o = None -> MetricValues m !! Name MetricCpuUsage = None)
    /\ (originMemory s o = None ->
        Forall (fun metric => MetricValues m !! Name metric = None)
          [MetricMemoryUsage; MetricMemoryWorkingSet; MetricMemoryRSS;
           MetricMemoryPageFaults; MetricMemoryMajorPageFaults])
    /\ (originNetwork s o = None ->
        Forall (fun metric => MetricValues m !! Name metric = None)
          [MetricNetworkRx; MetricNetworkRxErrors; MetricNetworkTx;
           MetricNetworkTxErrors])
    /\ (forall fsKey, (fsKey, None) ∈ originFs s o ->
        Forall (fun lm => resourceID lm <> Some fsKey) (LabeledMetrics m)).
Proof.
  intros Hm. destruct (decodeSummary_origin this s k m Hm) as (o & Ho & -> & ->).
  exists o. split; [exact Ho|]. split; [reflexivity|].
  split; [apply MetricValues_originSet|].
  split; [apply LabeledMetrics_originSet|].
  split; [|split; [|split]].
  - intros H. by rewrite MetricValues_originSet, statistic_no_cpu.
  - intros H. eapply Forall_impl; [apply (statistic_no_memory s o H)|].
    intros metric Hstat. simpl in Hstat. by rewrite MetricValues_originSet, Hstat.
  - intros H. eapply Forall_impl; [apply (statistic_no_network s o H)|].
    intros metric Hstat. simpl in Hstat. by rewrite MetricValues_originSet, Hstat.
  - intros fsKey Hin. rewrite LabeledMetrics_originSet. by apply no_fs_no_samples.
Qed.

(** The theorem on the document of [TestScrapeSummaryMetrics]: the container
    has memory statistics only, and its set has no [cpu/usage]. *)
Lemma null_statistics_emit_nothing_witness :
  exists m,
    decodeSummary summary_test.testingSummaryMetricsSource summary_test.scrapeTestSummary
      !! "namespace:my-namespace/pod:my-pod/container:my-container" = Some m
    /\ MetricValues m !! "cpu/usage" = None.
Proof.
  destruct (decodeSummary summary_test.testingSummaryMetricsSource
              summary_test.scrapeTestSummary
              !! "namespace:my-namespace/pod:my-pod/container:my-container")
    as [m|] eqn:Hm; [|vm_compute in Hm; discriminate Hm].
  exists m. split; [reflexivity|].
  destruct (null_statistics_emit_nothing _ _ _ _ Hm)
    as (o & Ho & Hk & _ & _ & Hcpu & _).
  apply Hcpu. clear Hcpu Hm.
  destruct o as [|c|pod|pod c]; cbn [originIn originKey originCPU] in *.
  - compute in Hk. discriminate Hk.
  - by apply elem_of_nil in Ho.
  - apply list_elem_of_singleton in Ho as ->. compute in Hk. discriminate Hk.
  - destruct Ho as [Hpod Hc]. apply list_elem_of_singleton in Hpod as ->.
    apply list_elem_of_singleton in Hc as ->. reflexivity.
Defined.

(** *** Keys of slash-free names do not collide *)

Lemma slashFreeNames_pod (s : Summary) (pod : PodStats) :
  slashFreeNames s = true -> pod ∈ Pods s ->
  slashFree (PodNamespace (PodRef pod)) = true
  /\ slashFree (PodName (PodRef pod)) = true
  /\ slashFreeContainers (Containers pod) = true.
Proof.
  unfold slashFreeNames. rewrite !andb_true_iff, forallb_forall.
  intros [_ Hpods] Hpod. apply list_elem_of_In, Hpods in Hpod.
  rewrite !andb_true_iff in Hpod. tauto.
Qed.

Lemma segments_podKey (pod : PodStats) :
  slashFree (PodNamespace (PodRef pod)) = true ->
  slashFree (PodName (PodRef pod)) = true ->
  segments (podKey pod)
  = ["namespace:" +:+ PodNamespace (PodRef pod); "pod:" +:+ PodName (PodRef pod)].
Proof.
  intros Hns Hpn. unfold podKey, PodKey.
  change ("/pod:" +:+ PodName (PodRef pod))
    with (String "/" ("pod:" +:+ PodName (PodRef pod))).
  by rewrite segments_tagged, segments_last.
Qed.

Lemma segments_containerKey (pod : PodStats) (c : ContainerStats) :
  slashFree (PodNamespace (PodRef pod)) = true ->
  slashFree (PodName (PodRef pod)) = true ->
  slashFree (ContainerName c) = true ->
  segments (containerKey pod c)
  = ["namespace:" +:+ PodNamespace (PodRef pod); "pod:" +:+ PodName (PodRef pod);
     "container:" +:+ ContainerName c].
Proof.
  intros Hns Hpn Hc. unfold containerKey, PodContainerKey.
  change ("/pod:" +:+ PodName (PodRef pod) +:+ "/container:" +:+ ContainerName c)
    with (String "/" ("pod:" +:+ PodName (PodRef pod)
                        +:+ String "/" ("container:" +:+ ContainerName c))).
  by rewrite !segments_tagged, segments_last.
Qed.

Lemma PodRef_eq (p q : PodStats) :
  PodNamespace (PodRef p) = PodNamespace (PodRef q) ->
  PodName (PodRef p) = PodName (PodRef q) ->
  PodRef p = PodRef q.
Proof. destruct (PodRef p), (PodRef q); simpl. by intros -> ->. Qed.

Section SlashFree.
Variable s : Summary.
Hypothesis Hs : slashFreeNames s = true.


Lemma podKey_ne_containerKey (p q : PodStats) (c : ContainerStats) :
  p ∈ Pods s -> q ∈ Pods s -> c ∈ Containers q -> podKey p <> containerKey q c.
Proof.
  intros Hp Hq Hc Hk.
  destruct (slashFreeNames_pod s p Hs Hp) as (? & ? & _).
  destruct (slashFreeNames_pod s q Hs Hq) as (? & ? & Hcs).
  apply (f_equal segments) in Hk.
  rewrite segments_podKey, segments_containerKey in Hk
    by eauto using slashFreeContainers_elem.
  discriminate Hk.
Qed.

Lemma containerKey_eq (p q : PodStats) (c c' : ContainerStats) :
  p ∈ Pods s -> q ∈ Pods s -> c ∈ Containers p -> c' ∈ Containers q ->
  containerKey p c = containerKey q c' ->
  PodRef p = PodRef q /\ ContainerName c = ContainerName c'.
Proof.
  intros Hp Hq Hc Hc' Hk.
  destruct (slashFreeNames_pod s p Hs Hp) as (? & ? & Hcs).
  destruct (slashFreeNames_pod s q Hs Hq) as (? & ? & Hcs').
  apply (f_equal segments) in Hk.
  rewrite !segments_containerKey in Hk by eauto using slashFreeContainers_elem.
  injection Hk as Hns Hpn Hcn.
  apply (inj (String.app _)) in Hns, Hpn, Hcn. split; [by apply PodRef_eq | done].
Qed.

End SlashFree.

Lemma node_keys_not_pod_keys (s : Summary) (o : origin) (a : string) :
  "node:" +:+ a = originKey s o ->
  match o with
  | FromNode | FromSystemContainer _ => True
  | FromPod _ | FromPodContainer _ _ => False
  end.
Proof.
  destruct o as [|c|pod|pod c]; simpl; try done; intros H;
    by apply node_key_not_namespace_key in H.
Qed.

(** *** System containers *)

(** C3. The kubelet, runtime and misc system containers are named "kubelet",
    "docker-daemon" and "system"; every other name is kept. In the batch,
    every system container of the node sits under the key of its canonical
    name and carries it as its [container_name]; the containers of a pod keep
    their names, "runtime" included. *)
Theorem system_container_names (this : summaryMetricsSource) (s : Summary) :
  (forall t cpu mem rootfs logs,
      getSystemContainerName (mkContainerStats "kubelet" t cpu mem rootfs logs) = "kubelet"
      /\ getSystemContainerName (mkContainerStats "runtime" t cpu mem rootfs logs)
         = "docker-daemon"
      /\ getSystemContainerName (mkContainerStats "misc" t cpu mem rootfs logs) = "system")
  /\ (forall c,
        getSystemContainerName c = ContainerName c
        \/ ContainerName c = "runtime" \/ ContainerName c = "misc")
  /\ (forall c, c ∈ SystemContainers (Node s) ->
        exists m,
          decodeSummary this s
            !! NodeContainerKey (NodeName (Node s)) (getSystemContainerName c) = Some m
          /\ Labels m !! LabelContainerName = Some (getSystemContainerName c)
          /\ Labels m !! LabelMetricSetType = Some MetricSetTypeSystemContainer)
  /\ (if slashFreeNames s then
        forall pod c, pod ∈ Pods s -> c ∈ Containers pod ->
          exists m,
            decodeSummary this s
              !! PodContainerKey (PodNamespace (PodRef pod)) (PodName (PodRef pod))
                   (ContainerName c) = Some m
            /\ Labels m !! LabelContainerName = Some (ContainerName c)
            /\ Labels m !! LabelMetricSetType = Some MetricSetTypePodContainer
      else True).
Proof.
  split; [intros; repeat split|].
  split.
  { intros c. unfold getSystemContainerName.
    repeat case_decide; auto; left; congruence. }
  split.
  - intros c Hc.
    destruct (decodeSummary_has_key this s (FromSystemContainer c) Hc) as [m Hm].
    exists m. split; [exact Hm|].
    destruct (decodeSummary_origin this s _ m Hm) as (o & Ho & Hk & ->).
    pose proof (node_keys_not_pod_keys s o _ Hk) as Hnode.
    destruct o as [|c'|pod|pod c']; try done; cbn [originKey originSet] in *.
    + by apply eq_sym, NodeKey_not_container in Hk.
    + apply NodeContainerKey_inj in Hk. rewrite Hk.
      rewrite Labels_decodeContainerStats. split.
      * apply lookup_insert_eq.
      * rewrite lookup_insert_ne by done. apply lookup_insert_eq.
  - destruct (slashFreeNames s) eqn:Hs; [|done].
    intros pod c Hpod Hc.
    destruct (decodeSummary_has_key this s (FromPodContainer pod c) (conj Hpod Hc))
      as [m Hm].
    exists m. split; [exact Hm|].
    destruct (decodeSummary_origin this s _ m Hm) as (o & Ho & Hk & ->).
    destruct o as [|c'|q|q c']; cbn [originKey originSet originIn] in *.
    + by apply eq_sym, node_key_not_namespace_key in Hk.
    + by apply eq_sym, node_key_not_namespace_key in Hk.
    + by apply eq_sym, (podKey_ne_containerKey s Hs q pod c) in Hk.
    + destruct Ho as [Hq Hc'].
      destruct (containerKey_eq s Hs pod q c c' Hpod Hq Hc Hc' Hk) as [_ ->].
      rewrite Labels_decodeContainerStats. split.
      * apply lookup_insert_eq.
      * rewrite lookup_insert_ne by done. apply lookup_insert_eq.
Qed.

(** The theorem on the document of [TestDecodeSummaryMetrics]: the runtime
    system container is stored as "docker-daemon", the container "runtime" of
    the third pod as "runtime". *)
Lemma system_container_names_witness :
  (exists m,
      decodeSummary summary_test.testingSummaryMetricsSource summary_test.decodeTestSummary
        !! "node:test/container:docker-daemon" = Some m
      /\ Labels m !! "container_name" = Some "docker-daemon")
  /\ (exists m,
        decodeSummary summary_test.testingSummaryMetricsSource summary_test.decodeTestSummary
          !! "namespace:test1/pod:pod0/container:runtime" = Some m
        /\ Labels m !! "container_name" = Some "runtime").
Proof.
  destruct (system_container_names summary_test.testingSummaryMetricsSource
              summary_test.decodeTestSummary) as (_ & _ & Hsys & Hpod).
  split.
  - destruct (Hsys (summary_test.genTestSummaryContainer "runtime" summary_test.seedRuntime))
      as (m & Hm & Hname & _).
    + right. left.
    + exists m. split; [exact Hm | exact Hname].
  - change (slashFreeNames summary_test.decodeTestSummary) with true in Hpod.
    destruct (Hpod (List.nth 2 (Pods summary_test.decodeTestSummary)
                      (withContainers (mkPodStats (mkPodReference "" "") 0 None [] []) []))
                (summary_test.genTestSummaryContainer "runtime"
                   summary_test.seedPod2Container1))
      as (m & Hm & Hname & _).
    + right. right. left.
    + right. left.
    + exists m. split; [exact Hm | exact Hname].
Defined.

(** *** Volumes *)







(** The pod of [TestScrapeSummaryMetrics] has one volume and three labeled
    samples, all of them of "Volume:data". *)
Example scrape_test_volume :
  (fun m => (List.length (LabeledMetrics m), resourceID <$> LabeledMetrics m))
    <$> (decodeSummary summary_test.testingSummaryMetricsSource
           summary_test.scrapeTestSummary !! "namespace:my-namespace/pod:my-pod")
  = Some (3%nat, [Some "Volume:data"; Some "Volume:data"; Some "Volume:data"]).
Proof. vm_compute. reflexivity. Qed.

(** *** Terminated containers *)

Section OneCell.

Variables (pod : PodStats) (labels : gmap string string) (k : string).
Variable new : ContainerStats.
Hypothesis Hnew : k = containerKey pod new.

Lemma cellStep_cases (cur : option MetricSet) (c : ContainerStats) :
  cellStep pod labels k cur c = cur
  \/ (k = containerKey pod c
      /\ cellStep pod labels k cur c = Some (decodeContainerStats labels c false)
      /\ match cur with
         | Some e => CreateTime e <= ContainerStartTime c
         | None => True
         end).
Proof.
  unfold cellStep. destruct (decide _) as [Hk|Hk]; [|by left].
  destruct cur as [e|]; [|by right].
  unfold Before. destruct (Z.ltb_spec (ContainerStartTime c) (CreateTime e));
    [by left | by right].
Qed.

Lemma startedSince_new (cur : option MetricSet) :
  startedSince new (cellStep pod labels k cur new).
Proof.
  unfold cellStep. rewrite decide_True by exact Hnew.
  destruct cur as [e|]; simpl.
  - unfold Before. destruct (Z.ltb_spec (ContainerStartTime new) (CreateTime e));
      simpl; [lia|]. rewrite CreateTime_decodeContainerStats. lia.
  - rewrite CreateTime_decodeContainerStats. lia.
Qed.

Lemma startedSince_step (cur : option MetricSet) (c : ContainerStats) :
  startedSince new cur -> startedSince new (cellStep pod labels k cur c).
Proof.
  destruct cur as [e|]; [|done]. simpl. intros He.
  destruct (cellStep_cases (Some e) c) as [->|(_ & -> & Hc)]; simpl; [exact He|].
  rewrite CreateTime_decodeContainerStats. lia.
Qed.

Lemma startedSince_fold (cs : list ContainerStats) (cur : option MetricSet) :
  new ∈ cs -> startedSince new (foldl (cellStep pod labels k) cur cs).
Proof.
  intros Hin. apply (foldl_establishes (startedSince new) _ _ new); [exact Hin|..].
  - apply startedSince_new.
  - intros a c. apply startedSince_step.
Qed.

(** An entry that started before [new] is skipped once [new] is in. *)
Lemma cellStep_skips (cur : option MetricSet) (old : ContainerStats) :
  startedSince new cur ->
  ContainerStartTime old < ContainerStartTime new ->
  cellStep pod labels k cur old = cur.
Proof.
  destruct cur as [e|]; [|done]. simpl. intros He Hold.
  unfold cellStep. destruct (decide _); [|reflexivity].
  unfold Before. destruct (Z.ltb_spec (ContainerStartTime old) (CreateTime e));
    [reflexivity | lia].
Qed.

Lemma startedBefore_step (cur : option MetricSet) (c : ContainerStats) :
  startedBefore new cur ->
  ContainerStartTime c < ContainerStartTime new ->
  startedBefore new (cellStep pod labels k cur c).
Proof.
  intros Hcur Hc.
  destruct (cellStep_cases cur c) as [->|(_ & -> & _)]; [exact Hcur|].
  simpl. by rewrite CreateTime_decodeContainerStats.
Qed.

(** Something older than [new] gives way to an entry that is not. *)
Lemma cellStep_replaces (cur : option MetricSet) (c : ContainerStats) :
  startedBefore new cur ->
  ContainerStartTime new <= ContainerStartTime c ->
  k = containerKey pod c ->
  cellStep pod labels k cur c = Some (decodeContainerStats labels c false).
Proof.
  intros Hcur Hc Hk. unfold cellStep. rewrite decide_True by exact Hk.
  destruct cur as [e|]; [|reflexivity]. simpl in Hcur.
  unfold Before. destruct (Z.ltb_spec (ContainerStartTime c) (CreateTime e));
    [lia | reflexivity].
Qed.

Lemma agreeBefore_step (a b : option MetricSet) (c : ContainerStats) :
  agreeBefore new a b ->
  agreeBefore new (cellStep pod labels k a c) (cellStep pod labels k b c).
Proof.
  intros [->|[Ha Hb]]; [by left|].
  destruct (decide (k = containerKey pod c)) as [Hk|Hk].
  - destruct (Z.lt_ge_cases (ContainerStartTime c) (ContainerStartTime new))
      as [Hc|Hc].
    + right. split; by apply startedBefore_step.
    + left. by rewrite !cellStep_replaces.
  - right. unfold cellStep. by rewrite !decide_False.
Qed.

Lemma agreeBefore_new (a b : option MetricSet) :
  agreeBefore new a b ->
  cellStep pod labels k a new = cellStep pod labels k b new.
Proof.
  intros [->|[Ha Hb]]; [reflexivity|].
  rewrite !cellStep_replaces; done || lia.
Qed.

Lemma agreeBefore_fold (cs : list ContainerStats) (a b : option MetricSet) :
  new ∈ cs -> agreeBefore new a b ->
  foldl (cellStep pod labels k) a cs = foldl (cellStep pod labels k) b cs.
Proof.
  revert a b. induction cs as [|c cs IH]; intros a b Hin Hab.
  - destruct (proj1 (elem_of_nil _) Hin).
  - simpl. apply elem_of_cons in Hin as [<-|Hin].
    + by rewrite (agreeBefore_new a b).
    + apply IH; [exact Hin|]. by apply agreeBefore_step.
Qed.

(** Decoding an entry that started before [new] changes nothing under
    [k] that [new] does not undo. *)
Lemma agreeBefore_old (cur : option MetricSet) (old : ContainerStats) :
  ContainerStartTime old < ContainerStartTime new ->
  agreeBefore new cur (cellStep pod labels k cur old).
Proof.
  intros Hold.
  destruct (cellStep_cases cur old) as [->|(_ & -> & Hcur)]; [by left|].
  right. split.
  - destruct cur as [e|]; simpl in *; [lia | exact I].
  - simpl. by rewrite CreateTime_decodeContainerStats.
Qed.

(** Under [k], the entries of a pod with and without a terminated
    container give the same. *)
Lemma cell_without_terminated (cs1 cs2 : list ContainerStats)
  (old : ContainerStats) (cur : option MetricSet) :
  new ∈ (cs1 ++ cs2)%list ->
  ContainerStartTime old < ContainerStartTime new ->
  foldl (cellStep pod labels k) cur (cs1 ++ old :: cs2)%list
  = foldl (cellStep pod labels k) cur (cs1 ++ cs2)%list.
Proof.
  intros Hin Hold. rewrite !foldl_app. simpl.
  apply elem_of_app in Hin as [Hin|Hin].
  - by rewrite (cellStep_skips _ old (startedSince_fold cs1 cur Hin)).
  - symmetry. apply agreeBefore_fold; [exact Hin|]. by apply agreeBefore_old.
Qed.

End OneCell.

Lemma decodePodStats_without_terminated (m : gmap string MetricSet)
  (l : gmap string string) (pod : PodStats) (cs1 cs2 : list ContainerStats)
  (old new : ContainerStats) :
  Containers pod = (cs1 ++ old :: cs2)%list ->
  new ∈ (cs1 ++ cs2)%list ->
  ContainerName new = ContainerName old ->
  ContainerStartTime old < ContainerStartTime new ->
  decodePodStats m l pod = decodePodStats m l (withContainers pod (cs1 ++ cs2)).
Proof.
  intros Hcs Hin Hname Hold. apply map_eq. intros k.
  rewrite !lookup_decodePodStats, Hcs.
  change (Containers (withContainers pod (cs1 ++ cs2))) with (cs1 ++ cs2)%list.
  change (podMetricSet l (withContainers pod (cs1 ++ cs2))) with (podMetricSet l pod).
  change (podKey (withContainers pod (cs1 ++ cs2))) with (podKey pod).
  change (cellStep (withContainers pod (cs1 ++ cs2))) with (cellStep pod).
  destruct (decide (k = containerKey pod old)) as [Hk|Hk].
  - apply (cell_without_terminated pod _ k new); [|exact Hin | exact Hold].
    rewrite Hk. unfold containerKey. by rewrite Hname.
  - rewrite !foldl_app. simpl. f_equal.
    unfold cellStep at 1. by rewrite decide_False.
Qed.

Lemma decodeSummary_without_terminated (this : summaryMetricsSource) (s : Summary)
  (ps1 ps2 : list PodStats) (pod : PodStats) (cs1 cs2 : list ContainerStats)
  (old new : ContainerStats) :
  Pods s = (ps1 ++ pod :: ps2)%list ->
  Containers pod = (cs1 ++ old :: cs2)%list ->
  new ∈ (cs1 ++ cs2)%list ->
  ContainerName new = ContainerName old ->
  ContainerStartTime old < ContainerStartTime new ->
  decodeSummary this s
  = decodeSummary this
      (withPods s (ps1 ++ withContainers pod (cs1 ++ cs2) :: ps2)).
Proof.
  intros Hpods Hcs Hin Hname Hold. unfold decodeSummary. rewrite Hpods.
  cbn [withPods Pods Node]. rewrite !foldl_app. simpl.
  by rewrite (decodePodStats_without_terminated _ _ pod cs1 cs2 old new).
Qed.

Lemma slashFreeNames_without (s : Summary) (ps1 ps2 : list PodStats)
  (pod : PodStats) (cs1 cs2 : list ContainerStats) (old : ContainerStats) :
  Pods s = (ps1 ++ pod :: ps2)%list ->
  Containers pod = (cs1 ++ old :: cs2)%list ->
  slashFreeNames s = true ->
  slashFreeNames (withPods s (ps1 ++ withContainers pod (cs1 ++ cs2) :: ps2)) = true.
Proof.
  intros Hpods Hcs. unfold slashFreeNames. cbn [withPods Pods Node].
  rewrite Hpods, !forallb_app. cbn [forallb withContainers Containers PodRef].
  unfold slashFreeContainers. rewrite Hcs, !forallb_app. cbn [forallb].
  rewrite !andb_true_iff. tauto.
Qed.

(** C2. When a pod has an entry [old] for a container and an entry [new] of
    the same name with a later start, decoding the document gives the same
    batch as decoding it without [old]: the terminated entry contributes
    nothing. When moreover the names of the document are slash-free, no other
    pod has the namespace and name of this one, and [new] is the only other
    entry of that name, then the batch holds under the key of the container
    the set decoded from [new]. *)
Theorem terminated_container_dropped (this : summaryMetricsSource) (s : Summary)
  (ps1 ps2 : list PodStats) (pod : PodStats) (cs1 cs2 : list ContainerStats)
  (old new : ContainerStats) :
  Pods s = (ps1 ++ pod :: ps2)%list ->
  Containers pod = (cs1 ++ old :: cs2)%list ->
  new ∈ (cs1 ++ cs2)%list ->
  ContainerName new = ContainerName old ->
  ContainerStartTime old < ContainerStartTime new ->
  decodeSummary this s
  = decodeSummary this
      (withPods s (ps1 ++ withContainers pod (cs1 ++ cs2) :: ps2))
  /\ (slashFreeNames s = true ->
      Forall (fun q => PodRef q <> PodRef pod) (ps1 ++ ps2)%list ->
      Forall (fun c => ContainerName c = ContainerName old -> c = new)
        (cs1 ++ cs2)%list ->
      decodeSummary this s
        !! PodContainerKey (PodNamespace (PodRef pod)) (PodName (PodRef pod))
             (ContainerName old)
      = Some (decodeContainerStats (podLabels this pod) new false)).
Proof.
  intros Hpods Hcs Hin Hname Hold.
  pose proof (decodeSummary_without_terminated this s ps1 ps2 pod cs1 cs2 old new
                Hpods Hcs Hin Hname Hold) as Heq.
  split; [exact Heq|].
  intros Hs Hrefs Hnames. rewrite Heq.
  set (pod' := withContainers pod (cs1 ++ cs2)) in *.
  set (s' := withPods s (ps1 ++ pod' :: ps2)) in *.
  assert (slashFreeNames s' = true) as Hs'
    by (by apply (slashFreeNames_without s ps1 ps2 pod cs1 cs2 old)).
  assert (pod' ∈ Pods s') as Hpod'.
  { apply elem_of_app. right. left. }
  destruct (decodeSummary_has_key this s' (FromPodContainer pod' new)
              (conj Hpod' Hin)) as [m Hm].
  change (originKey s' (FromPodContainer pod' new))
    with (PodContainerKey (PodNamespace (PodRef pod)) (PodName (PodRef pod))
            (ContainerName new)) in Hm.
  rewrite Hname in Hm. rewrite Hm. f_equal.
  destruct (decodeSummary_origin this s' _ m Hm) as (o & Ho & Hk & ->).
  rewrite <- Hname in Hk.
  change (PodContainerKey (PodNamespace (PodRef pod)) (PodName (PodRef pod))
            (ContainerName new)) with (containerKey pod' new) in Hk.
  destruct o as [|c|q|q c]; cbn [originKey originIn originSet] in *.
  - by apply eq_sym, node_key_not_namespace_key in Hk.
  - by apply eq_sym, node_key_not_namespace_key in Hk.
  - by apply eq_sym, (podKey_ne_containerKey s' Hs' q pod' new) in Hk.
  - destruct Ho as [Hq Hc].
    destruct (containerKey_eq s' Hs' pod' q new c Hpod' Hq Hin Hc Hk) as [Href Hcn].
    assert (q = pod') as ->.
    { apply elem_of_app in Hq as [Hq|Hq]; [|apply elem_of_cons in Hq as [->|Hq]];
        [|reflexivity|].
      - rewrite Forall_app, !Forall_forall in Hrefs. destruct Hrefs as [H1 _].
        by destruct (H1 q Hq).
      - rewrite Forall_app, !Forall_forall in Hrefs. destruct Hrefs as [_ H2].
        by destruct (H2 q Hq). }
    rewrite Forall_forall in Hnames.
    rewrite (Hnames c Hc) by congruence.
    reflexivity.
Qed.

(** The theorem on the first pod of [TestDecodeSummaryMetrics], which lists
    the container c0 twice: started at [startTime], and a minute earlier. *)
Lemma terminated_container_dropped_witness :
  decodeSummary summary_test.testingSummaryMetricsSource summary_test.decodeTestSummary
    !! "namespace:test0/pod:pod0/container:c0"
  = Some (decodeContainerStats
            (podLabels summary_test.testingSummaryMetricsSource
               (List.nth 0 (Pods summary_test.decodeTestSummary)
                  (withContainers (mkPodStats (mkPodReference "" "") 0 None [] []) [])))
            (summary_test.genTestSummaryContainer "c0" summary_test.seedPod0Container0)
            false)
  /\ CreateTime
       (decodeContainerStats
          (podLabels summary_test.testingSummaryMetricsSource
             (List.nth 0 (Pods summary_test.decodeTestSummary)
                (withContainers (mkPodStats (mkPodReference "" "") 0 None [] []) [])))
          (summary_test.genTestSummaryContainer "c0" summary_test.seedPod0Container0)
          false)
     = summary_test.startTime.
Proof.
  split; [|reflexivity].
  refine (proj2 (terminated_container_dropped
            summary_test.testingSummaryMetricsSource summary_test.decodeTestSummary
            [] (List.tl (Pods summary_test.decodeTestSummary))
            (List.nth 0 (Pods summary_test.decodeTestSummary)
               (withContainers (mkPodStats (mkPodReference "" "") 0 None [] []) []))
            [summary_test.genTestSummaryContainer "c0" summary_test.seedPod0Container0;
             summary_test.genTestSummaryContainer "c1" summary_test.seedPod0Container1]
            []
            (summary_test.genTestSummaryTerminatedContainer "c0"
               summary_test.seedPod0Container0)
            (summary_test.genTestSummaryContainer "c0" summary_test.seedPod0Container0)
            _ _ _ _ _) _ _ _).
  - reflexivity.
  - reflexivity.
  - left.
  - reflexivity.
  - vm_compute. reflexivity.
  - reflexivity.
  - repeat constructor; discriminate.
  - constructor; [intros _; reflexivity|].
    constructor; [intros H; discriminate H|]. constructor.
Defined.

(** *** The expectations of [TestDecodeSummaryMetrics] *)

(** The batch of the test document has the twelve sets the test expects, of
    the expected types, and no other. *)
Example test_decode_summary_sets :
  size (decodeSummary summary_test.testingSummaryMetricsSource
          summary_test.decodeTestSummary) = 12%nat
  /\ (fun k =>
        decodeSummary summary_test.testingSummaryMetricsSource
          summary_test.decodeTestSummary !! k
        ≫= fun m => Labels m !! LabelMetricSetType)
       <$> [ "node:test";
             "node:test/container:kubelet";
             "node:test/container:docker-daemon";
             "node:test/container:system";
             "namespace:test0/pod:pod0";
             "namespace:test0/pod:pod1";
             "namespace:test1/pod:pod0";
             "namespace:test0/pod:pod0/container:c0";
             "namespace:test0/pod:pod0/container:c1";
             "namespace:test0/pod:pod1/container:c0";
             "namespace:test1/pod:pod0/container:c1";
             "namespace:test1/pod:pod0/container:runtime" ]
      = [ Some "node"; Some "sys_container"; Some "sys_container";
          Some "sys_container"; Some "pod"; Some "pod"; Some "pod";
          Some "pod_container"; Some "pod_container"; Some "pod_container";
          Some "pod_container"; Some "pod_container" ].
Proof. split; vm_compute; reflexivity. Qed.

(** [checkIntMetric] and [checkFsMetric] on the container c0 of the first
    pod: the values are those of the running entry (seed 2000), not of the
    terminated one. *)
Example test_decode_summary_values :
  (fun m : MetricSet =>
     (IntValue <$> MetricValues m !! "cpu/usage",
      IntValue <$> MetricValues m !! "memory/usage",
      (fun lm => (LName lm, resourceID lm, IntValue (LValue lm))) <$> LabeledMetrics m))
    <$> (decodeSummary summary_test.testingSummaryMetricsSource
           summary_test.decodeTestSummary
           !! "namespace:test0/pod:pod0/container:c0")
  = Some (Some 2001, Some 2004,
          [ ("filesystem/available", Some "/", 2013);
            ("filesystem/limit", Some "/", 2012);
            ("filesystem/usage", Some "/", 2011);
            ("filesystem/available", Some "logs", 2013);
            ("filesystem/limit", Some "logs", 2012);
            ("filesystem/usage", Some "logs", 2011) ]).
Proof. vm_compute. reflexivity. Qed.

(** * More properties of the code *)

(** ** Start-up *)

Lemma getKubernetesAddress_never_panics (args : Uris) (msg : string) :
  getKubernetesAddress args <> Panic msg.
Proof.
  induction args as [|u rest IH]; simpl; [discriminate|].
  rewrite splitHead_before. destruct (decide _); [discriminate | exact IH].
Qed.

Lemma getKubernetesAddress_error (args : Uris) (e : error) :
  getKubernetesAddress args = Err e -> e = "No kubernetes source found.".
Proof.
  induction args as [|u rest IH]; simpl.
  - by intros [= <-].
  - rewrite splitHead_before. destruct (decide _); [discriminate | exact IH].
Qed.

Lemma getKubernetesAddress_single (u : Uri) :
  getKubernetesAddress [u]
  = if decide (strings.before "." (Key u) = "kubernetes") then Ret (Val u)
    else Err "No kubernetes source found.".
Proof. simpl. by rewrite splitHead_before. Qed.

Lemma validateFlags_tls (f : Flags) :
  validateFlags f = None ->
  (argTLSCertFile f = "" <-> argTLSKeyFile f = "")
  /\ (argTLSClientCAFile f <> "" -> argTLSCertFile f <> "").
Proof.
  unfold validateFlags. rewrite !nonempty_isempty.
  destruct (argMetricResolution f <? 5 * Second); [discriminate|].
  destruct (decide (argTLSCertFile f = "")) as [Hc|Hc];
    destruct (decide (argTLSKeyFile f = "")) as [Hk|Hk];
    destruct (decide (argTLSClientCAFile f = "")) as [Ha|Ha];
    repeat match goal with
      | H : ?s = "" |- context [isempty ?s] =>
          rewrite (proj2 (isempty_true s) H)
      | H : ?s <> "" |- context [isempty ?s] =>
          replace (isempty s) with false
            by (symmetry; apply bool_decide_eq_false; exact H)
      end; simpl; intros Hv; try discriminate Hv; tauto.
Qed.

Section MainFacts.

Variable sources_BuildAll : Uris -> option error.
Variable sources_NewSourceManager : option error.
Variable sinks_BuildAll_metricSink : Uris -> bool.
Variable sinks_NewDataSinkManager : option error.
Variable manager_NewManager : option error.
Variable newAuthHandler_pprof : option error.
Variable newAuthHandler_prometheus : option error.
Variable KubeConfig : Type.
Variable kube_config_GetKubeClientConfig : URL -> KubeConfig + error.
Variable kube_client_NewOrDie : KubeConfig -> option string.

Abbreviation main' :=
  (main sources_BuildAll sources_NewSourceManager sinks_BuildAll_metricSink
     sinks_NewDataSinkManager manager_NewManager
     newAuthHandler_pprof newAuthHandler_prometheus
     kube_config_GetKubeClientConfig kube_client_NewOrDie).

Abbreviation getPodLister' :=
  (getPodLister kube_config_GetKubeClientConfig kube_client_NewOrDie).

Abbreviation serve' := (serve newAuthHandler_pprof newAuthHandler_prometheus).

Ltac cases_of H :=
  repeat match type of H with
    | match ?x with _ => _ end = _ => destruct x
    | (if ?b then _ else _) = _ => destruct b
    end.

(** [serve] ends in a fatal error or in a listener, never in a panic. *)
Lemma serve_never_panics (f : Flags) (msg : string) : serve' f <> Crash msg.
Proof.
  unfold serve, listenTLS. intros H. cases_of H; discriminate H.
Qed.

(** [main] up to the call of [getPodLister]: it ends there in a fatal error,
    or it has found its one kubernetes source and goes on with the pod lister
    and the listener. *)
Lemma main_prefix (f : Flags) :
  (exists e, main' f = Fatal e)
  \/ (validateFlags f = None
      /\ sources_NewSourceManager = None
      /\ sinks_BuildAll_metricSink (argSinks f) = true
      /\ sinks_NewDataSinkManager = None
      /\ manager_NewManager = None
      /\ exists u,
           argSources f = [u]
           /\ isKubernetesSource u
           /\ sources_BuildAll [u] = None
           /\ main' f
              = match getPodLister' (Val u) with
                | Err e => Fatal ("Failed to create podLister: " +:+ e)
                | Panic msg => Crash msg
                | Ret _ => serve' f
                end).
Proof.
  unfold main.
  destruct (validateFlags f) eqn:Hv; [left; eauto|].
  destruct (Nat.eqb_spec (List.length (argSources f)) 1) as [Hl|Hl];
    simpl; [|left; eauto].
  destruct (argSources f) as [|u [|u' rest]] eqn:Hsrc; try discriminate Hl.
  destruct (sources_BuildAll [u]) eqn:Hb; [left; eauto|].
  destruct sources_NewSourceManager; [left; eauto|].
  destruct (sinks_BuildAll_metricSink (argSinks f)); simpl; [|left; eauto].
  destruct sinks_NewDataSinkManager; [left; eauto|].
  cbn [getKubernetesAddress]. rewrite splitHead_before.
  destruct (decide (strings.before "." (Key u) = "kubernetes")) as [Hk|Hk];
    [|left; eauto].
  destruct manager_NewManager; [left; eauto|].
  right. repeat (split; [reflexivity|]). exists u. by repeat split.
Qed.

(** X1. [main] gets as far as serving only with flags that pass
    [validateFlags] and with exactly one source, which is a kubernetes source:
    the source factory accepted it and the pod lister was built for its URL. *)
Theorem main_serves_one_kubernetes_source (f : Flags) :
  match main' f with
  | ServePlain | ServeTLS _ _ _ =>
      validateFlags f = None
      /\ exists u,
           argSources f = [u]
           /\ isKubernetesSource u
           /\ sources_BuildAll [u] = None
           /\ getPodLister' (Val u) = Ret tt
  | Fatal _ | Crash _ => True
  end.
Proof.
  destruct (main_prefix f) as [[e ->]|(Hv & _ & _ & _ & _ & u & Hsrc & Hk & Hb & ->)];
    [exact I|].
  destruct (getPodLister' (Val u)) as [[]|e|msg] eqn:Hp; try exact I.
  destruct (serve' f); try exact I; (split; [exact Hv | by exists u]).
Qed.

(** X2. [main] panics only inside [getPodLister], where
    [kube_client.NewOrDie] does: it has then passed every step before it
    (the flags, the one kubernetes source, the factories and managers) and
    [kube_config.GetKubeClientConfig] has returned the configuration on which
    [NewOrDie] panics. The index into the result of [strings.SplitN] is always
    in range, whatever the keys of the sources are. *)
Theorem main_panics_in_NewOrDie (f : Flags) (msg : string) :
  main' f = Crash msg
  <-> validateFlags f = None
      /\ sources_NewSourceManager = None
      /\ sinks_BuildAll_metricSink (argSinks f) = true
      /\ sinks_NewDataSinkManager = None
      /\ manager_NewManager = None
      /\ exists u kubeConfig,
           argSources f = [u]
           /\ isKubernetesSource u
           /\ sources_BuildAll [u] = None
           /\ kube_config_GetKubeClientConfig (Val u) = inl kubeConfig
           /\ kube_client_NewOrDie kubeConfig = Some msg.
Proof.
  split.
  - intros Hm.
    destruct (main_prefix f)
      as [[e He]|(Hv & Hsm & Hs & Hd & Hmm & u & Hsrc & Hk & Hb & Hmain)];
      [congruence|].
    repeat (split; [assumption|]). exists u.
    rewrite Hmain in Hm. unfold getPodLister in Hm.
    destruct (kube_config_GetKubeClientConfig (Val u)) as [kubeConfig|e];
      [|discriminate Hm].
    exists kubeConfig.
    destruct (kube_client_NewOrDie kubeConfig) as [msg'|] eqn:Hdie.
    + injection Hm as ->. by repeat split.
    + by destruct (serve_never_panics f msg).
  - intros (Hv & Hsm & Hs & Hd & Hmm & u & kubeConfig & Hsrc & Hk & Hb & Hcfg & Hdie).
    unfold main. rewrite Hv, Hsrc, Hb, Hsm, Hs, Hd, Hmm. simpl.
    rewrite splitHead_before. unfold isKubernetesSource in Hk.
    rewrite decide_True by exact Hk.
    unfold getPodLister. by rewrite Hcfg, Hdie.
Qed.

(** X3. How [main] serves. It serves over TLS exactly with a certificate and
    a key; then "/" and "/metrics" are both served by the handlers that
    [newAuthHandler] built when [--tls_client_ca] is set, and by the plain
    handlers when it is not, and the TLS configuration asks for a client
    certificate ([tls.RequestClientCert]) exactly when [--allowed_users] is
    set. It serves in plain only when neither certificate, key nor client CA
    file is given. *)
Theorem main_serving_mode (f : Flags) :
  match main' f with
  | ServeTLS root metrics clientAuth =>
      argTLSCertFile f <> "" /\ argTLSKeyFile f <> ""
      /\ (if decide (argTLSClientCAFile f = "") then
            root = Direct /\ metrics = Direct
          else
            root = Authorized /\ metrics = Authorized
            /\ newAuthHandler_pprof = None /\ newAuthHandler_prometheus = None)
      /\ (clientAuth = RequestClientCert <-> argAllowedUsers f <> "")
  | ServePlain =>
      argTLSCertFile f = "" /\ argTLSKeyFile f = "" /\ argTLSClientCAFile f = ""
  | Fatal _ | Crash _ => True
  end.
Proof.
  destruct (main_prefix f) as [[e ->]|(Hv & _ & _ & _ & _ & u & _ & _ & _ & ->)];
    [exact I|].
  destruct (getPodLister' (Val u)) as [[]|e|msg]; try exact I.
  destruct (validateFlags_tls f Hv) as [Hck Hca].
  unfold serve, listenTLS. rewrite !nonempty_isempty.
  destruct (decide (argTLSCertFile f = "")) as [Hc|Hc];
    destruct (decide (argTLSKeyFile f = "")) as [Hk|Hk]; try tauto;
    destruct (decide (argTLSClientCAFile f = "")) as [Ha|Ha];
    try (by destruct (Hca Ha Hc));
    destruct (decide (argAllowedUsers f = "")) as [Hu|Hu];
    repeat match goal with
      | H : ?s = "" |- context [isempty ?s] =>
          rewrite (proj2 (isempty_true s) H)
      | H : ?s <> "" |- context [isempty ?s] =>
          replace (isempty s) with false
            by (symmetry; apply bool_decide_eq_false; exact H)
      end; simpl;
    try (destruct newAuthHandler_pprof; [exact I|];
         destruct newAuthHandler_prometheus; [exact I|]; simpl);
    rewrite ?(decide_True _ _ Ha), ?(decide_False _ _ Ha);
    repeat split; try done.
Qed.

(** X4. [main] ends in "Failed to get kubernetes address: No kubernetes
    source found." exactly when everything before the lookup went well (the
    flags, the one source, the source and sink factories and managers) and
    the one source is not a kubernetes source. *)
Theorem main_no_kubernetes_source (f : Flags) :
  main' f = Fatal "Failed to get kubernetes address: No kubernetes source found."
  <-> validateFlags f = None
      /\ (exists u, argSources f = [u] /\ ~ isKubernetesSource u)
      /\ sources_BuildAll (argSources f) = None
      /\ sources_NewSourceManager = None
      /\ sinks_BuildAll_metricSink (argSinks f) = true
      /\ sinks_NewDataSinkManager = None.
Proof.
  split.
  - intros H. unfold main in H.
    destruct (validateFlags f) as [e|] eqn:Hv.
    { exfalso. injection H as ->. revert Hv. unfold validateFlags.
      repeat match goal with
        | |- context [if ?b then _ else _] => destruct b
        end; discriminate. }
    destruct (Nat.eqb_spec (List.length (argSources f)) 1) as [Hl|Hl];
      simpl in H; [|discriminate H].
    destruct (argSources f) as [|u [|u' rest]] eqn:Hsrc in H, Hl |- *;
      try discriminate Hl.
    destruct (sources_BuildAll [u]) eqn:Hb; [discriminate H|].
    destruct sources_NewSourceManager; [discriminate H|].
    destruct (sinks_BuildAll_metricSink (argSinks f)); simpl in H; [|discriminate H].
    destruct sinks_NewDataSinkManager; [discriminate H|].
    rewrite splitHead_before in H.
    destruct (decide (strings.before "." (Key u) = "kubernetes")) as [Hk|Hk].
    + exfalso.
      destruct manager_NewManager; [discriminate H|].
      destruct (getPodLister' (Val u)); [|discriminate H..].
      unfold serve, listenTLS in H. cases_of H; discriminate H.
    + repeat split. exists u. split; [reflexivity | exact Hk].
  - intros (Hv & (u & Hsrc & Hk) & Hb & Hm & Hs & Hd).
    unfold main. rewrite Hv, Hb, Hm, Hs, Hd, Hsrc. simpl.
    rewrite splitHead_before. unfold isKubernetesSource in Hk.
    by rewrite decide_False.
Qed.

End MainFacts.

(** ** Looking up the kubernetes source *)

Lemma before_decompose (c : ascii) (s : string) :
  s = strings.before c s \/ exists rest, s = strings.before c s +:+ String c rest.
Proof.
  induction s as [|a s IH]; simpl; [by left|].
  destruct (decide (a = c)) as [->|Hac].
  - right. by exists s.
  - destruct IH as [IH|[rest IH]].
    + left. by f_equal.
    + right. exists rest.
      change (String a (strings.before c s) +:+ String c rest)
        with (String a (strings.before c s +:+ String c rest)).
      by f_equal.
Qed.

(** X5. Looking up the kubernetes source in two lists one after the other:
    a source found in the first list is the answer, whatever follows it, and
    otherwise the answer is that of the second list. *)
Theorem getKubernetesAddress_app (l1 l2 : Uris) :
  getKubernetesAddress (l1 ++ l2)%list
  = match getKubernetesAddress l1 with
    | Ret url => Ret url
    | Err _ => getKubernetesAddress l2
    | Panic msg => Panic msg
    end.
Proof.
  induction l1 as [|u l1 IH]; [reflexivity|].
  cbn [app getKubernetesAddress]. rewrite splitHead_before.
  destruct (decide _); [reflexivity | exact IH].
Qed.

(** X6. Which keys name a kubernetes source: the key "kubernetes" itself and
    the keys that start with "kubernetes."; nothing else does (the match is
    on the whole part before the first dot, and it is case sensitive). *)
Theorem getKubernetesAddress_keys (key : string) (url : URL) :
  getKubernetesAddress [{| Key := key; Val := url |}] = Ret url
  <-> key = "kubernetes" \/ exists rest, key = "kubernetes." +:+ rest.
Proof.
  rewrite getKubernetesAddress_single. cbn [Key Val]. split.
  - destruct (decide (strings.before "." key = "kubernetes")) as [Hk|Hk];
      [intros _ | discriminate].
    destruct (before_decompose "." key) as [H|[rest H]]; rewrite Hk in H.
    + by left.
    + right. by exists rest.
  - intros [->|[rest ->]]; reflexivity.
Qed.

(** ** More on the health check *)

Lemma Sub_monotone (t t' u : Time) : t <= t' -> Sub t u <= Sub t' u.
Proof.
  intros Ht. unfold Sub.
  assert (minDuration <= maxDuration) by (vm_compute; discriminate).
  repeat match goal with
    | |- context [(?x <? ?y)] => destruct (Z.ltb_spec x y)
    end; lia.
Qed.

Section HealthzFacts.

Variable Time_String : Time -> string.

(** X7. Once the check fails it keeps failing until a new batch arrives:
    with the same latest batch, a failure at one instant is a failure at every
    later instant, however far away (the age saturates instead of wrapping
    around). *)
Theorem healthz_stays_failed (now now' : Time) (latest : option DataBatch) :
  now <= now' ->
  app.healthzStatus Time_String now latest = 500 ->
  app.healthzStatus Time_String now' latest = 500.
Proof.
  intros Hnow. unfold app.healthzStatus, app.healthzChecker.
  destruct latest as [batch|]; [|done].
  pose proof (Sub_monotone now now' (Timestamp batch) Hnow) as Hsub.
  destruct (Z.ltb_spec app.maxMetricsDelay (Sub now (Timestamp batch)));
    destruct (Z.ltb_spec app.maxMetricsDelay (Sub now' (Timestamp batch)));
    try done; try lia.
Qed.

(** X8. The check reports too few metrics only for a batch that is not
    stale, and the count it reports is then always 0: the answer is
    "Not enough metrics found in the latest data batch: 0 (expected min. 1)
    <timestamp>" exactly when the latest batch is at most three minutes old
    and has no set. A stale batch without sets is reported as stale. *)
Theorem healthz_not_enough_iff (now : Time) (batch : DataBatch) :
  app.healthzChecker Time_String now (Some batch)
  = Some ("Not enough metrics found in the latest data batch: 0 (expected min. 1) "
            +:+ Time_String (Timestamp batch))
  <-> now - Timestamp batch <= 3 * Minute /\ MetricSets batch = ∅.
Proof.
  unfold app.healthzChecker.
  rewrite (Sub_exceeds _ _ _ maxMetricsDelay_fits).
  change app.maxMetricsDelay with (3 * Minute).
  destruct (Z.ltb_spec (3 * Minute) (now - Timestamp batch)) as [Hold|Hfresh].
  { split; [intros H; discriminate H | intros [? _]; lia]. }
  unfold app.minMetricsCount.
  destruct (Z.ltb_spec (Z.of_nat (size (MetricSets batch))) 1) as [Hfew|Hmany].
  - assert (MetricSets batch = ∅) as Hempty by (apply map_size_empty_iff; lia).
    rewrite Hempty, map_size_empty. split; [by intros _ | by intros _].
  - split; [discriminate|]. intros [_ Hempty].
    rewrite Hempty, map_size_empty in Hmany. simpl in Hmany. lia.
Qed.

End HealthzFacts.

(** The check at work a minute after it began to fail, and so much later
    that the age of the batch no longer fits a [Duration]. *)
Lemma healthz_stays_failed_witness :
  app.healthzStatus examples.decimalTime (1000 + 5 * Minute)
    (Some (examples.batchAt 1000)) = 500
  /\ app.healthzStatus examples.decimalTime (2 ^ 70)
       (Some (examples.batchAt 1000)) = 500.
Proof.
  split.
  - apply (healthz_stays_failed examples.decimalTime (1000 + 4 * Minute));
      [vm_compute; discriminate | reflexivity].
  - apply (healthz_stays_failed examples.decimalTime (1000 + 4 * Minute));
      [vm_compute; discriminate | reflexivity].
Defined.

(** ** More on the Elasticsearch events sink *)

Section SinkMore.
Import elasticsearch recording.

Variable json_MarshalIndent : option Event -> res string.

(** X9. The point of an event: its value is the encoded event, its time the
    last timestamp of the event, and its tags are [eventID] and [hostname],
    plus [pod_id] and [pod_name] exactly for events about a pod (kind "Pod"):
    two tags or four, never another one. An error or a panic of the encoder
    is passed on as it is. *)
Theorem eventToPoint_tags (ev : Event) :
  match eventToPoint json_MarshalIndent (Some ev) with
  | Ret point =>
      json_MarshalIndent (Some ev) = Ret (EventValue point)
      /\ EventTimestamp point = LastTimestamp ev
      /\ EventTags point !! "eventID" = Some (UID ev)
      /\ EventTags point !! "hostname" = Some (SourceHost ev)
      /\ (if decide (Kind (InvolvedObject ev) = "Pod") then
            EventTags point !! "pod_id" = Some (ObjUID (InvolvedObject ev))
            /\ EventTags point !! "pod_name" = Some (ObjName (InvolvedObject ev))
            /\ size (EventTags point) = 4%nat
          else
            EventTags point !! "pod_id" = None
            /\ EventTags point !! "pod_name" = None
            /\ size (EventTags point) = 2%nat)
  | Err e => json_MarshalIndent (Some ev) = Err e
  | Panic msg => json_MarshalIndent (Some ev) = Panic msg
  end.
Proof.
  unfold eventToPoint, getEventValue.
  destruct (json_MarshalIndent (Some ev)) as [value|e|msg]; [|reflexivity..].
  cbn [EventValue EventTimestamp EventTags].
  split; [reflexivity|]. split; [reflexivity|].
  destruct (decide (Kind (InvolvedObject ev) = "Pod")) as [Hk|Hk].
  - repeat split.
  - repeat split.
Qed.

Lemma eventToPoint_Ret_iff (event : option Event) :
  (exists point, eventToPoint json_MarshalIndent event = Ret point)
  <-> is_Some event /\ exists value, json_MarshalIndent event = Ret value.
Proof.
  unfold eventToPoint, getEventValue.
  destruct (json_MarshalIndent event) as [value|e|msg].
  - destruct event as [ev|].
    + split; [intros _ | intros _]; eauto.
    + split; [intros [p H]; discriminate H | intros [[ev H] _]; discriminate H].
  - split; [intros [p H]; discriminate H | intros [_ [v H]]; discriminate H].
  - split; [intros [p H]; discriminate H | intros [_ [v H]]; discriminate H].
Qed.

Section AnySink.

Variable World : Type.
Variable saveData : Time -> list EsSinkPoint -> World -> option error * World.
Variable flushData : World -> option error * World.

Lemma exportLoop_app (l1 l2 : list (option Event)) (st : sinkState World) :
  exportLoop json_MarshalIndent World saveData (l1 ++ l2)%list st
  = match exportLoop json_MarshalIndent World saveData l1 st with
    | Returned _ st' => exportLoop json_MarshalIndent World saveData l2 st'
    | Panicked _ msg st' => Panicked World msg st'
    end.
Proof.
  revert st. induction l1 as [|ev l1 IH]; intros st; [reflexivity|].
  cbn [app exportLoop].
  destruct (eventToPoint json_MarshalIndent ev); try reflexivity.
  destruct (saveData _ _ _). apply IH.
Qed.

Lemma exportLoop_keeps (events : list (option Event)) (st : sinkState World) :
  locked _ (finalState (exportLoop json_MarshalIndent World saveData events st))
  = locked _ st
  /\ warnings _ st
     `prefix_of` warnings _ (finalState
                             (exportLoop json_MarshalIndent World saveData events st)).
Proof.
  revert st. induction events as [|ev events IH]; intros st; cbn [exportLoop].
  - by split.
  - destruct (eventToPoint json_MarshalIndent ev) as [p|e|msg]; cbn [finalState].
    + destruct (saveData _ _ _) as [err w].
      match goal with
      | |- context [exportLoop _ _ _ events ?st0] => destruct (IH st0) as [Hl Hw]
      end.
      cbn [locked warnings] in Hl, Hw. split; [exact Hl|].
      etrans; [|exact Hw]. destruct err; [by apply prefix_app_r | done].
    + split; [reflexivity|]. by apply prefix_app_r.
    + by split.
Qed.

(** X10. [ExportEvents] returns, rather than panics, exactly when every
    event of the batch is a non-nil pointer that the encoder accepts: a
    failing [saveData] or [flushData] never makes it panic. *)
Theorem ExportEvents_returns_iff (eventBatch : EventBatch) (st : sinkState World) :
  (exists st', ExportEvents json_MarshalIndent World saveData flushData eventBatch st
               = Returned World st')
  <-> Forall (fun event =>
                is_Some event /\ exists value, json_MarshalIndent event = Ret value)
        (Events eventBatch).
Proof.
  rewrite <- (Forall_iff _ _ _ eventToPoint_Ret_iff).
  rewrite <- (exportLoop_returns_iff json_MarshalIndent World saveData
                (Events eventBatch)
                {| locked := true; warnings := warnings _ st; world := world _ st |}).
  unfold ExportEvents.
  destruct (exportLoop _ _ _ _ _) as [st'|msg st'].
  - destruct (flushData (world _ st')) as [err w]. split; eauto.
  - split; intros [st'' H]; discriminate H.
Qed.

(** X11. However it ends, [ExportEvents] leaves the mutex of the sink
    unlocked and only adds to the warnings logged so far. *)
Theorem ExportEvents_unlocks (eventBatch : EventBatch) (st : sinkState World) :
  locked _ (finalState
            (ExportEvents json_MarshalIndent World saveData flushData eventBatch st))
  = false
  /\ warnings _ st
     `prefix_of` warnings _ (finalState
                             (ExportEvents json_MarshalIndent World saveData flushData
                                eventBatch st)).
Proof.
  unfold ExportEvents.
  destruct (exportLoop_keeps (Events eventBatch)
              {| locked := true; warnings := warnings _ st; world := world _ st |})
    as [_ Hw].
  cbn [warnings] in Hw.
  destruct (exportLoop _ _ _ _ _) as [st'|msg st']; cbn [finalState] in *.
  - destruct (flushData (world _ st')) as [err w]. by split.
  - by split.
Qed.

End AnySink.

Section RecordingSink.

Variable saveError : Time -> list EsSinkPoint -> option error.
Variable flushError : option error.

Lemma exportLoop_recorded (events : list (option Event)) (points : list EsSinkPoint)
  (st : sinkState (list call)) :
  Forall2 (fun event point => eventToPoint json_MarshalIndent event = Ret point)
    events points ->
  exportLoop json_MarshalIndent (list call) (recordSave saveError) events st
  = Returned (list call)
      {| locked := locked _ st;
         warnings := (warnings _ st ++ saveWarnings saveError points)%list;
         world := (world _ st
                   ++ ((fun p => Save (EventTimestamp p) [p]) <$> points))%list |}.
Proof.
  intros H. revert st.
  induction H as [|ev p events points Hev _ IH]; intros st; cbn [exportLoop].
  - unfold saveWarnings. cbn [omap list_omap fmap list_fmap]. rewrite !app_nil_r.
    by destruct st.
  - rewrite Hev. unfold recordSave at 1. rewrite IH. cbn [locked warnings world].
    f_equal. f_equal.
    + unfold saveWarnings. cbn [omap list_omap].
      destruct (saveError (EventTimestamp p) [p]); cbn [fmap option_fmap option_map].
      * by rewrite <- app_assoc.
      * reflexivity.
    + rewrite fmap_cons, <- app_assoc. reflexivity.
Qed.

(** X12. An export that goes through, seen from the service: for a batch
    whose events all convert, [saveData] is called once per event, in the
    order of the batch, each time with the timestamp of the event and a slice
    holding its one point, and [flushData] is called once, after the last
    save. A save that fails is logged and the export goes on; an error of the
    flush is neither logged nor returned. *)
Theorem ExportEvents_calls (events : list (option Event))
  (points : list EsSinkPoint) (t : Time) (st : sinkState (list call)) :
  Forall2 (fun event point => eventToPoint json_MarshalIndent event = Ret point)
    events points ->
  ExportEvents json_MarshalIndent (list call) (recordSave saveError)
    (recordFlush flushError) {| BatchTimestamp := t; Events := events |} st
  = Returned (list call)
      {| locked := false;
         warnings := (warnings _ st ++ saveWarnings saveError points)%list;
         world := (world _ st
                   ++ ((fun p => Save (EventTimestamp p) [p]) <$> points)
                   ++ [Flush])%list |}.
Proof.
  intros H. unfold ExportEvents. cbn [Events].
  rewrite (exportLoop_recorded events points _ H).
  unfold recordFlush, unlock. cbn [locked warnings world].
  by rewrite <- app_assoc.
Qed.

(** X13. An export that stops half-way: when the events before a nil
    event pointer convert, and the encoder encodes the nil pointer as the
    library's does, the points of the events before it have been saved and
    then [ExportEvents] panics inside [eventToPoint]: nothing more is logged,
    the events after it are never saved and [flushData] is never called. *)
Theorem ExportEvents_stops (before : list (option Event))
  (points : list EsSinkPoint) (value : string)
  (after : list (option Event)) (t : Time) (st : sinkState (list call)) :
  Forall2 (fun event point => eventToPoint json_MarshalIndent event = Ret point)
    before points ->
  json_MarshalIndent None = Ret value ->
  ExportEvents json_MarshalIndent (list call) (recordSave saveError)
    (recordFlush flushError)
    {| BatchTimestamp := t; Events := (before ++ None :: after)%list |} st
  = Panicked (list call) nil_dereference
      {| locked := false;
         warnings := (warnings _ st ++ saveWarnings saveError points)%list;
         world := (world _ st
                   ++ ((fun p => Save (EventTimestamp p) [p]) <$> points))%list |}.
Proof.
  intros Hbefore Hnil. unfold ExportEvents. cbn [Events].
  rewrite exportLoop_app, (exportLoop_recorded before points _ Hbefore).
  cbn [exportLoop]. unfold eventToPoint at 1, getEventValue. rewrite Hnil.
  reflexivity.
Qed.

End RecordingSink.

End SinkMore.

(** An export of two events, the first of which cannot be saved: both saves
    are made, then the flush, and the failed save is logged. *)
Lemma ExportEvents_calls_witness :
  exists p1 p2,
    elasticsearch.ExportEvents examples.constantMarshal (list recording.call)
      (recording.recordSave more_examples.saveTimesOut)
      (recording.recordFlush (Some "flush failed"))
      {| elasticsearch.BatchTimestamp := 5000;
         elasticsearch.Events :=
           [Some examples.podEvent; Some more_examples.nodeEvent] |}
      {| elasticsearch.locked := false; elasticsearch.warnings := [];
         elasticsearch.world := [] |}
    = elasticsearch.Returned (list recording.call)
        {| elasticsearch.locked := false;
           elasticsearch.warnings :=
             ["Failed to export data to ElasticSearch sink: timeout"];
           elasticsearch.world :=
             [recording.Save 1000 [p1]; recording.Save 2000 [p2]; recording.Flush] |}.
Proof.
  let r1 := eval vm_compute in
              (elasticsearch.eventToPoint examples.constantMarshal
                 (Some examples.podEvent)) in
  let r2 := eval vm_compute in
              (elasticsearch.eventToPoint examples.constantMarshal
                 (Some more_examples.nodeEvent)) in
  match r1 with
  | Ret ?x =>
      match r2 with
      | Ret ?y =>
          exists x, y;
          refine (ExportEvents_calls examples.constantMarshal
                    more_examples.saveTimesOut (Some "flush failed")
                    [Some examples.podEvent; Some more_examples.nodeEvent] [x; y]
                    5000 _ _)
      end
  end.
  repeat constructor.
Defined.

(** An export of three event pointers, the second of which is nil: the
    first event is saved, the third is not, and there is no flush. *)
Lemma ExportEvents_stops_witness :
  exists p1,
    elasticsearch.ExportEvents examples.constantMarshal (list recording.call)
      (recording.recordSave (fun _ _ => None)) (recording.recordFlush None)
      {| elasticsearch.BatchTimestamp := 5000;
         elasticsearch.Events :=
           [Some examples.podEvent; None; Some more_examples.nodeEvent] |}
      {| elasticsearch.locked := false; elasticsearch.warnings := [];
         elasticsearch.world := [] |}
    = elasticsearch.Panicked (list recording.call) nil_dereference
        {| elasticsearch.locked := false;
           elasticsearch.warnings := [];
           elasticsearch.world := [recording.Save 1000 [p1]] |}.
Proof.
  let r1 := eval vm_compute in
              (elasticsearch.eventToPoint examples.constantMarshal
                 (Some examples.podEvent)) in
  match r1 with
  | Ret ?x =>
      exists x;
      refine (ExportEvents_stops examples.constantMarshal (fun _ _ => None) None
                [Some examples.podEvent] [x] "null"
                [Some more_examples.nodeEvent] 5000 _ _ _)
  end.
  - repeat constructor.
  - reflexivity.
Defined.

(** ** The checks of the tests *)

Section TestChecks.
Import summary_checks summary_test.

Lemma prefix_iff (p s : string) :
  String.prefix p s = true <-> exists rest, s = p +:+ rest.
Proof.
  split; [|intros [rest ->]; apply prefix_app].
  revert s. induction p as [|c p IH]; intros s H.
  - by exists s.
  - destruct s as [|d s]; [discriminate H|]. simpl in H.
    destruct (ascii_dec c d) as [->|]; [|discriminate H].
    destruct (IH s H) as [rest ->]. by exists rest.
Qed.

(** X14. The assertion that closes [TestScrapeSummaryMetrics] holds for a
    labeled metric exactly when its resource id is a prefix of "Volume:data"
    (the two arguments of [strings.HasPrefix] are the other way round): it
    holds for "Volume:data", but also for a metric without any resource id,
    and it fails for "Volume:database". *)
Theorem volumeDataAssertion_accepts (labeledMetric : LabeledMetric) :
  (volumeDataAssertion labeledMetric = true
   <-> exists rest,
         "Volume:data" = labelOf (LLabels labeledMetric) "resource_id" +:+ rest)
  /\ (forall name value,
        volumeDataAssertion {| LName := name; LLabels := ∅; LValue := value |} = true)
  /\ (forall name value,
        volumeDataAssertion
          {| LName := name; LLabels := {[ "resource_id" := "Volume:database" ]};
             LValue := value |} = false).
Proof.
  split; [apply prefix_iff|]. split; reflexivity.
Qed.

Lemma uint64Val_small (seed offset : Z) :
  0 <= seed + offset < 2 ^ 63 -> uint64Val seed offset = Some (seed + offset).
Proof.
  intros H. unfold uint64Val. f_equal. apply Z.mod_small. lia.
Qed.

Lemma intValue_small (v : Z) :
  0 <= v < 2 ^ 63 -> intValue v = mkMetricValue ValueInt64 v.
Proof.
  intros H. unfold intValue, int64_of_uint64.
  destruct (Z.ltb_spec v (2 ^ 63)); [reflexivity | lia].
Qed.

Lemma checkIntMetric_passes (metrics : MetricSet) (metric : Metric) (v : Z) :
  0 <= v < 2 ^ 63 ->
  MetricValues metrics !! Name metric = Some (intValue v) ->
  checkIntMetric metrics metric v = Passed.
Proof.
  intros Hv Hm. unfold checkIntMetric. rewrite Hm, (intValue_small v Hv).
  unfold assertEqual. cbn [IntValue]. by rewrite decide_True.
Qed.

Lemma generated_fs_samples (fsKey : string) (seed : Z) :
  0 <= seed -> seed + 13 < 2 ^ 63 ->
  fsLabeledMetrics fsKey (Some (genTestSummaryFsStats seed))
  = [ {| LName := "filesystem/available"; LLabels := {[ LabelResourceID := fsKey ]};
         LValue := mkMetricValue ValueInt64 (seed + offsetFsAvailable) |};
      {| LName := "filesystem/limit"; LLabels := {[ LabelResourceID := fsKey ]};
         LValue := mkMetricValue ValueInt64 (seed + offsetFsCapacity) |};
      {| LName := "filesystem/usage"; LLabels := {[ LabelResourceID := fsKey ]};
         LValue := mkMetricValue ValueInt64 (seed + offsetFsUsed) |} ].
Proof.
  intros H0 H13. unfold fsLabeledMetrics, genTestSummaryFsStats.
  cbn [FsAvailableBytes CapacityBytes UsedBytes].
  rewrite !uint64Val_small
    by (unfold offsetFsAvailable, offsetFsCapacity, offsetFsUsed; lia).
  unfold fsSample.
  rewrite !intValue_small
    by (unfold offsetFsAvailable, offsetFsCapacity, offsetFsUsed; lia).
  reflexivity.
Qed.

Lemma generated_container_labeled (labels : gmap string string) (name : string)
  (seed : Z) (sys : bool) :
  LabeledMetrics (decodeContainerStats labels (genTestSummaryContainer name seed) sys)
  = (fsLabeledMetrics RootFsKey (Some (genTestSummaryFsStats seed))
     ++ fsLabeledMetrics LogsKey (Some (genTestSummaryFsStats seed)))%list.
Proof.
  unfold decodeContainerStats.
  by rewrite !LabeledMetrics_decodeFsStats, LabeledMetrics_decodeMemoryStats,
    LabeledMetrics_decodeCPUStats.
Qed.

Lemma labelOf_singleton (k v : string) : labelOf {[ k := v ]} k = v.
Proof. unfold labelOf. by rewrite lookup_singleton_eq. Qed.

Lemma assertEqual_same (v : Z) : assertEqual v v = Passed.
Proof. unfold assertEqual. by rewrite decide_True. Qed.

Lemma generated_container_fs (labels : gmap string string) (name : string)
  (seed : Z) (sys : bool) (label : string) :
  0 <= seed -> seed + 13 < 2 ^ 63 ->
  label = "/" \/ label = "logs" ->
  let m := decodeContainerStats labels (genTestSummaryContainer name seed) sys in
  checkFsMetric m label MetricFilesystemAvailable (seed + offsetFsAvailable) = Passed
  /\ checkFsMetric m label MetricFilesystemLimit (seed + offsetFsCapacity) = Passed
  /\ checkFsMetric m label MetricFilesystemUsage (seed + offsetFsUsed) = Passed.
Proof.
  intros H0 H13 Hlabel m. subst m. unfold checkFsMetric.
  rewrite generated_container_labeled, !generated_fs_samples by assumption.
  cbn [app checkFsLoop LName LLabels LValue IntValue].
  rewrite !labelOf_singleton, !assertEqual_same.
  destruct Hlabel as [->| ->]; repeat split.
Qed.

Lemma generated_container_value (labels : gmap string string) (name : string)
  (seed : Z) (sys : bool) (metric : string) :
  MetricValues (decodeContainerStats labels (genTestSummaryContainer name seed) sys)
    !! metric
  = intValue <$>
      (if decide (metric = "cpu/usage") then
         uint64Val seed offsetCPUUsageCoreSeconds
       else if decide (metric = "memory/usage") then
         uint64Val seed offsetMemUsageBytes
       else if decide (metric = "memory/working_set") then
         uint64Val seed offsetMemWorkingSetBytes
       else if decide (metric = "memory/rss") then
         uint64Val seed offsetMemRSSBytes
       else if decide (metric = "memory/page_faults") then
         uint64Val seed offsetMemPageFaults
       else if decide (metric = "memory/major_page_faults") then
         uint64Val seed offsetMemMajorPageFaults
       else None).
Proof.
  unfold decodeContainerStats. rewrite !MetricValues_decodeFsStats.
  pose proof MetricValues_cpu_memory_network as H.
  match goal with
  | |- MetricValues (decodeMemoryStats (decodeCPUStats ?m0 ?cpu) ?mem) !! ?n = _ =>
      specialize (H m0 cpu mem None n eq_refl)
  end.
  cbn [decodeNetworkStats] in H. rewrite H. clear H.
  cbn [Name MetricCpuUsage MetricMemoryUsage MetricMemoryWorkingSet MetricMemoryRSS
       MetricMemoryPageFaults MetricMemoryMajorPageFaults MetricNetworkRx
       MetricNetworkRxErrors MetricNetworkTx MetricNetworkTxErrors].
  repeat match goal with
    | |- context [decide (metric = ?b)] =>
        destruct (decide (metric = b)); [reflexivity|]
    end.
  reflexivity.
Qed.

(** X15. What [TestDecodeSummaryMetrics] expects of a container holds for
    every container that [genTestSummaryContainer] builds, whatever its name
    and for every seed that leaves room for the offsets: its set is created at
    [startTime] and scraped at [scrapeTime], [checkIntMetric] passes for the
    CPU usage and the five memory metrics at seed plus offset, and
    [checkFsMetric] passes for the three filesystem metrics of "/" and of
    "logs". *)
Theorem generated_container_passes (labels : gmap string string) (name : string)
  (seed : Z) (sys : bool) :
  0 <= seed -> seed + 13 < 2 ^ 63 ->
  let m := decodeContainerStats labels (genTestSummaryContainer name seed) sys in
  CreateTime m = startTime
  /\ ScrapeTime m = scrapeTime
  /\ checkIntMetric m MetricCpuUsage (seed + offsetCPUUsageCoreSeconds) = Passed
  /\ checkIntMetric m MetricMemoryUsage (seed + offsetMemUsageBytes) = Passed
  /\ checkIntMetric m MetricMemoryWorkingSet (seed + offsetMemWorkingSetBytes) = Passed
  /\ checkIntMetric m MetricMemoryRSS (seed + offsetMemRSSBytes) = Passed
  /\ checkIntMetric m MetricMemoryPageFaults (seed + offsetMemPageFaults) = Passed
  /\ checkIntMetric m MetricMemoryMajorPageFaults (seed + offsetMemMajorPageFaults)
     = Passed
  /\ Forall (fun label =>
               checkFsMetric m label MetricFilesystemAvailable
                 (seed + offsetFsAvailable) = Passed
               /\ checkFsMetric m label MetricFilesystemLimit
                    (seed + offsetFsCapacity) = Passed
               /\ checkFsMetric m label MetricFilesystemUsage
                    (seed + offsetFsUsed) = Passed)
       ["/"; "logs"].
Proof.
  intros H0 H13 m. subst m.
  split; [apply CreateTime_decodeContainerStats|].
  split; [reflexivity|].
  repeat match goal with
    | |- checkIntMetric _ ?metric (seed + ?off) = Passed /\ _ =>
        split;
        [apply checkIntMetric_passes; [unfold off; lia|];
         rewrite generated_container_value;
         transitivity (intValue <$> uint64Val seed off); [reflexivity|];
         rewrite uint64Val_small by (unfold off; lia); reflexivity|]
    end.
  apply Forall_cons. split; [apply generated_container_fs; auto|].
  apply Forall_cons. split; [apply generated_container_fs; auto|].
  constructor.
Qed.

End TestChecks.

(** The theorem at the seed and the name of the first container of the
    test. *)
Lemma generated_container_passes_witness :
  summary_checks.checkIntMetric
    (decodeContainerStats ∅ (summary_test.genTestSummaryContainer "c0" 2000) false)
    MetricCpuUsage 2001 = summary_checks.Passed
  /\ summary_checks.checkFsMetric
       (decodeContainerStats ∅ (summary_test.genTestSummaryContainer "c0" 2000) false)
       "logs" MetricFilesystemUsage 2011 = summary_checks.Passed.
Proof.
  destruct (generated_container_passes ∅ "c0" 2000 false)
    as (_ & _ & Hcpu & _ & _ & _ & _ & _ & Hfs); [lia | vm_compute; reflexivity |].
  split; [exact Hcpu|].
  inversion Hfs as [|? ? _ Hlogs]. inversion Hlogs as [|? ? (_ & _ & Husage) _].
  exact Husage.
Defined.

(** ** The sets of a batch *)

(** X16. The batch of a document has a set for the node, for each of its
    system containers, for each pod and for each container of a pod, under
    the key of that part, and no set under any other key: what
    [TestDecodeSummaryMetrics] checks with "missing metric" and "unexpected
    metric". *)
Theorem decodeSummary_keys (this : summaryMetricsSource) (s : Summary) (k : string) :
  is_Some (decodeSummary this s !! k)
  <-> k = NodeKey (NodeName (Node s))
      \/ (exists c,
            c ∈ SystemContainers (Node s)
            /\ k = NodeContainerKey (NodeName (Node s)) (getSystemContainerName c))
      \/ (exists pod,
            pod ∈ Pods s
            /\ k = PodKey (PodNamespace (PodRef pod)) (PodName (PodRef pod)))
      \/ (exists pod c,
            pod ∈ Pods s /\ c ∈ Containers pod
            /\ k = PodContainerKey (PodNamespace (PodRef pod)) (PodName (PodRef pod))
                     (ContainerName c)).
Proof.
  split.
  - intros [m Hm]. destruct (decodeSummary_origin this s k m Hm) as (o & Ho & -> & _).
    destruct o as [|c|pod|pod c]; cbn [originKey originIn] in *.
    + by left.
    + right; left. by exists c.
    + right; right; left. by exists pod.
    + right; right; right. destruct Ho. by exists pod, c.
  - intros [->|[(c & Hc & ->)|[(pod & Hpod & ->)|(pod & c & Hpod & Hc & ->)]]].
    + apply (decodeSummary_has_key this s FromNode I).
    + apply (decodeSummary_has_key this s (FromSystemContainer c) Hc).
    + apply (decodeSummary_has_key this s (FromPod pod) Hpod).
    + apply (decodeSummary_has_key this s (FromPodContainer pod c) (conj Hpod Hc)).
Qed.
